(** * The travel-assistant HTTP server (src/server.js), embedded in Rocq

    The five request handlers of [server.js] are embedded as functions of a
    small state-and-exception monad.  JavaScript values, truthiness,
    [ToString], property reads, string methods and the binary64 arithmetic of
    [Math.floor(Math.random() * n)] are written out the way the handlers use
    them.  Strings are sequences of UTF-8 bytes. *)

From Stdlib Require Import ZArith QArith String Ascii List Bool Lia.
From Stdlib Require Import DecimalString SpecFloat.
Import ListNotations.

Open Scope string_scope.
Open Scope Z_scope.

Set Warnings "-register-all".

(* ================================================================= *)
(** ** Strings *)

Module Str.

(** [String.prototype.toLowerCase], on the letters A-Z.  The bytes of a
    non-ASCII character are left alone: JavaScript maps such a character to
    non-ASCII characters again, but for U+0130 (to "i" and a combining dot)
    and the Kelvin sign (to "k"), and neither can complete one of the ASCII
    words the handlers compare the result with. *)
Definition lower (c : ascii) : ascii :=
  let n := nat_of_ascii c in
  if (65 <=? n)%nat && (n <=? 90)%nat then ascii_of_nat (n + 32) else c.

Fixpoint toLowerCase (s : string) : string :=
  match s with
  | EmptyString => EmptyString
  | String c s' => String (lower c) (toLowerCase s')
  end.

(** [s.includes(needle)] *)
Fixpoint includes (s needle : string) : bool :=
  prefix needle s ||
  match s with
  | EmptyString => false
  | String _ s' => includes s' needle
  end.

(** Decimal digits of a non-negative integer, no padding. *)
Definition of_nonneg (z : Z) : string :=
  NilZero.string_of_uint (N.to_uint (Z.to_N z)).

Definition hex_digit (n : nat) : ascii :=
  ascii_of_nat (if (n <? 10)%nat then 48 + n else 55 + n).

(** The characters [encodeURIComponent] leaves as they are. *)
Definition unreserved (c : ascii) : bool :=
  let n := nat_of_ascii c in
  ((48 <=? n) && (n <=? 57) || (65 <=? n) && (n <=? 90) ||
   (97 <=? n) && (n <=? 122))%nat ||
  includes "-_.!~*'()" (String c EmptyString).

Fixpoint percent_encode (s : string) : string :=
  match s with
  | EmptyString => EmptyString
  | String c s' =>
      if unreserved c then String c (percent_encode s')
      else let n := nat_of_ascii c in
           String "%" (String (hex_digit (n / 16))
                         (String (hex_digit (n mod 16)) (percent_encode s')))
  end.

(** The bytes of the first character of a UTF-8 string. *)
Definition first_char (s : string) : string :=
  match s with
  | EmptyString => EmptyString
  | String c _ =>
      let n := nat_of_ascii c in
      substring 0 (if (n <? 192)%nat then 1
                   else if (n <? 224)%nat then 2
                   else if (n <? 240)%nat then 3 else 4) s
  end.

End Str.

(* ================================================================= *)
(** ** JavaScript values *)

(** What [JSON.parse], the query-string parser and the object literals of the
    handlers produce.  A number is its exact decimal value; an object is the
    list of its own properties in insertion order, each key once. *)
Inductive value : Type :=
| VUndefined
| VNull
| VBool (b : bool)
| VNum (q : Q)
| VStr (s : string)
| VArr (items : list value)
| VObj (props : list (string * value)).

Definition num (z : Z) : value := VNum (inject_Z z).

(** What a handler can throw, and what the [catch] blocks read of it. *)
Inductive error : Type :=
| TypeError (message : string)
| AxiosError (message : string).

Definition message (e : error) : string :=
  match e with TypeError m | AxiosError m => m end.

Inductive result (A : Type) : Type :=
| Ok (a : A)
| Throw (e : error).
Arguments Ok {A} a.
Arguments Throw {A} e.

Module JS.

(** [!v] is [negb (truthy v)]. *)
Definition truthy (v : value) : bool :=
  match v with
  | VUndefined | VNull => false
  | VBool b => b
  | VNum q => negb (Qnum q =? 0)
  | VStr s => negb (s =? "")%string
  | VArr _ | VObj _ => true
  end.

Definition nullish (v : value) : bool :=
  match v with VUndefined | VNull => true | _ => false end.

Fixpoint assoc (props : list (string * value)) (key : string) : value :=
  match props with
  | [] => VUndefined
  | (k, v) :: rest => if (k =? key)%string then v else assoc rest key
  end.

Definition has_key (props : list (string * value)) (key : string) : bool :=
  existsb (fun kv => (fst kv =? key)%string) props.

(** [v.key] on a value that is neither [null] nor [undefined], for the
    property names the handlers read: none of them is on a prototype, so
    only an object's own properties answer. *)
Definition get (v : value) (key : string) : value :=
  match v with
  | VObj props => assoc props key
  | _ => VUndefined
  end.

(** [v[0]] on a value that is neither [null] nor [undefined]. *)
Definition get0 (v : value) : value :=
  match v with
  | VObj props => assoc props "0"
  | VArr items => nth 0%nat items VUndefined
  | VStr s => if (s =? "")%string then VUndefined else VStr (Str.first_char s)
  | _ => VUndefined
  end.

(** [2^k] for [k >= 0], and 1 otherwise: the factor that clears a negative
    exponent on the other side of a comparison. *)
Definition pow_pos (base k : Z) : Z := base ^ Z.max 0 k.

(** [floor (log2 (a / b))] for positive [a] and [b]. *)
Definition floor_log2 (a b : Z) : Z :=
  let t := Z.log2 a - Z.log2 b in
  if b * pow_pos 2 t <=? a * pow_pos 2 (- t) then t else t - 1.

(** A positive Number: a finite double [m * 2^e] with [0 < m < 2^53] and
    [e >= -1074], the infinity that a too large value rounds to, or the
    zero that a too small one rounds to. *)
Inductive positive_number : Type :=
| Finite (m e : Z)
| Infinite
| Underflow.

(** The double nearest to [a / b] (positive), ties to even. *)
Definition nearest_double (a b : Z) : positive_number :=
  let e := Z.max (floor_log2 a b - 52) (-1074) in
  let num := a * pow_pos 2 (- e) in
  let den := b * pow_pos 2 e in
  let q := num / den in
  let r := num mod den in
  let m := if 2 * r <? den then q
           else if den <? 2 * r then q + 1
           else if Z.even q then q else q + 1 in
  let '(m, e) := if m =? 2 ^ 53 then (2 ^ 52, e + 1) else (m, e) in
  if m =? 0 then Underflow
  else if 971 <? e then Infinite
  else Finite m e.

(** The sign of [c * 10^j - l * 2^e], for non-negative [c] and [l]. *)
Definition compare_scaled (c j l e : Z) : comparison :=
  (c * pow_pos 10 j * pow_pos 2 (- e)) ?= (l * pow_pos 2 e * pow_pos 10 (- j)).

(** The [n] with [10^(n-1) <= m * 2^e < 10^n], from an estimate. *)
Fixpoint adjust_exponent (fuel : nat) (m e n : Z) : Z :=
  match fuel with
  | O => n
  | S fuel' =>
      match compare_scaled 1 n m e with
      | Gt => match compare_scaled 1 (n - 1) m e with
              | Gt => adjust_exponent fuel' m e (n - 1)
              | _ => n
              end
      | _ => adjust_exponent fuel' m e (n + 1)
      end
  end.

Definition decimal_exponent (m e : Z) : Z :=
  adjust_exponent 8 m e ((Z.log2 m + e) * 1233 / 4096).

(** Whether [c * 10^j] rounds to the double [m * 2^e]: it lies between the
    midpoints to the two neighbouring doubles, which count when [m] is
    even.  In units of [2^(e-2)] the double is [4 m], the upper midpoint
    [4 m + 2] and the lower one [4 m - 2], or [4 m - 1] below a power of
    two. *)
Definition rounds_to (m e c j : Z) : bool :=
  let below := if (m =? 2 ^ 52) && (-1074 <? e) then 1 else 2 in
  let low := compare_scaled c j (4 * m - below) (e - 2) in
  let high := compare_scaled c j (4 * m + 2) (e - 2) in
  match low, high with
  | Gt, Lt => true
  | Eq, _ | _, Eq => Z.even m
  | _, _ => false
  end.

(** The digits [s] of [k] places, if any, with [s * 10^(n-k)] rounding to
    [m * 2^e]: the nearer of the two that enclose the double, the even one
    when both are as near. *)
Definition digits_of_length (m e n k : Z) : option Z :=
  let j := n - k in
  let lo := (m * pow_pos 2 e * pow_pos 10 (- j))
            / (pow_pos 2 (- e) * pow_pos 10 j) in
  let hi := lo + 1 in
  let lo_ok := rounds_to m e lo j && (0 <? lo) in
  let hi_ok := rounds_to m e hi j in
  if lo_ok && hi_ok then
    (* which is nearer: compare lo + hi with twice the double *)
    match compare_scaled (lo + hi) j (2 * m) e with
    | Lt => Some hi
    | Gt => Some lo
    | Eq => Some (if Z.even lo then lo else hi)
    end
  else if lo_ok then Some lo
  else if hi_ok then Some hi
  else None.

(** The fewest digits that identify the double, with their number and the
    decimal exponent [n]: the value is [0.digits * 10^n]. *)
Fixpoint shortest_from (fuel : nat) (m e n k : Z) : Z * Z * Z :=
  match fuel with
  | O => (m, k, n)
  | S fuel' =>
      match digits_of_length m e n k with
      | Some s => if s =? 10 ^ k then (1, 1, n + 1) else (s, k, n)
      | None => shortest_from fuel' m e n (k + 1)
      end
  end.

Definition shortest_digits (m e : Z) : Z * Z * Z :=
  shortest_from 17 m e (decimal_exponent m e) 1.

Fixpoint zeros (n : nat) : string :=
  match n with
  | O => EmptyString
  | S n' => String "0" (zeros n')
  end.

(** The text of a positive Number with digits [s] of [k] places and decimal
    exponent [n], by the four cases of [Number::toString]. *)
Definition positional (s k n : Z) : string :=
  let digits := Str.of_nonneg s in
  if (k <=? n) && (n <=? 21) then
    (digits ++ zeros (Z.to_nat (n - k)))%string
  else if (0 <? n) && (n <=? 21) then
    (substring 0 (Z.to_nat n) digits ++ "."
     ++ substring (Z.to_nat n) (Z.to_nat (k - n)) digits)%string
  else if (-6 <? n) && (n <=? 0) then
    ("0." ++ zeros (Z.to_nat (- n)) ++ digits)%string
  else
    let mark := if n - 1 <? 0 then "e-" else "e+" in
    let exponent := (mark ++ Str.of_nonneg (Z.abs (n - 1)))%string in
    if k =? 1 then (digits ++ exponent)%string
    else (substring 0 1 digits ++ "."
          ++ substring 1 (Z.to_nat (k - 1)) digits ++ exponent)%string.

(** [Number::toString] of the double nearest to [q], which is [q] itself
    when [q] is the value of a double: the fewest digits that read back as
    that double, in positional form from 1e-6 up to 1e21 and in exponent
    form outside. *)
Definition number_to_string (q : Q) : string :=
  let sign := if Qnum q <? 0 then "-" else "" in
  if Qnum q =? 0 then "0"
  else
    match nearest_double (Z.abs (Qnum q)) (Z.pos (Qden q)) with
    | Underflow => "0"
    | Infinite => (sign ++ "Infinity")%string
    | Finite m e =>
        let '(s, k, n) := shortest_digits m e in
        (sign ++ positional s k n)%string
    end.

Definition cannot_convert : error :=
  TypeError "Cannot convert object to primitive value".

(** [ToString], as template literals, [+] on a string and
    [encodeURIComponent] apply it.  An array is joined with commas, its
    [null] and [undefined] items as empty strings; an object prints
    through [Object.prototype.toString] unless an own property hides that
    method, in which case the conversion throws. *)
Fixpoint ToString (v : value) : result string :=
  match v with
  | VUndefined => Ok "undefined"
  | VNull => Ok "null"
  | VBool b => Ok (if b then "true" else "false")
  | VNum q => Ok (number_to_string q)
  | VStr s => Ok s
  | VArr items =>
      (fix join (l : list value) : result string :=
         match l with
         | [] => Ok ""
         | x :: rest =>
             match (if nullish x then Ok "" else ToString x) with
             | Throw e => Throw e
             | Ok sx =>
                 match rest with
                 | [] => Ok sx
                 | _ => match join rest with
                        | Throw e => Throw e
                        | Ok sr => Ok (sx ++ "," ++ sr)%string
                        end
                 end
             end
         end) items
  | VObj props =>
      if has_key props "toString" then Throw cannot_convert
      else Ok "[object Object]"
  end.

End JS.

(* ================================================================= *)
(** ** Binary64 arithmetic of [Math.floor(Math.random() * n)] *)

Module Double.

Definition in_unit (m e : Z) : bool :=
  (0 <=? m) && (m <? 2 ^ 53) && (53 <=? e) && (e <=? 1074).

(** A double in [0, 1), as [Math.random()] returns: [mant * 2^(-expo)]
    with a mantissa of at most 53 bits.  Every double below 1 has this
    form, subnormal numbers included ([expo = 1074]). *)
Record unit_double : Type := {
  mant : Z;
  expo : Z;
  in_range : in_unit mant expo = true
}.

(** Round a non-negative integer to 53 significant bits, to nearest, ties
    to even: the rounding of every binary64 operation. *)
Definition round53 (N : Z) : Z :=
  if N <? 2 ^ 53 then N
  else
    let k := Z.log2 N - 52 in
    let q := N / 2 ^ k in
    let r := N mod 2 ^ k in
    let half := 2 ^ (k - 1) in
    let q' := if r <? half then q
              else if half <? r then q + 1
              else if Z.even q then q else q + 1 in
    q' * 2 ^ k.

(** [r * n] for an integer literal [n]: the exact product, rounded.  The
    result is [fst * 2^(-snd)]. *)
Definition times (r : unit_double) (n : Z) : Z * Z :=
  (round53 (mant r * n), expo r).

(** [Math.floor] of a non-negative double [m * 2^(-e)]. *)
Definition floor (x : Z * Z) : Z := fst x / 2 ^ snd x.

(** The same product by the Standard Library's IEEE 754 multiplication,
    brought to the exponent of [r]; the examples below compare the two. *)
Definition ieee_times (r : unit_double) (n : Z) : option (Z * Z) :=
  if mant r =? 0 then Some (0, expo r)
  else
    match SFmul 53 1024 (S754_finite false (Z.to_pos (mant r)) (- expo r))
                        (S754_finite false (Z.to_pos n) 0) with
    | S754_finite false m e => Some (Z.pos m * 2 ^ (e + expo r), expo r)
    | _ => None
    end.

End Double.

(* ================================================================= *)
(** ** The handler monad *)

(** How an [axios.get] promise settles: with the parsed [response.data], or
    rejected with an error (network failure, status outside 2xx). *)
Inductive outcome : Type :=
| Resolved (data : value)
| Rejected (e : error).

(** What a request cannot change: the random source, the upstream services
    and the process environment. *)
Record world : Type := {
  random : nat -> Double.unit_double;
  upstream : string -> outcome;
  OPENWEATHER_API_KEY : option string
}.

(** What a handler leaves behind besides its response. *)
Record state : Type := {
  drawn : nat;              (* calls of Math.random so far *)
  called : list string;     (* URLs given to axios.get, oldest first *)
  logged : list string      (* lines of console.error, oldest first *)
}.

Definition start : state := {| drawn := 0; called := []; logged := [] |}.

Definition M (A : Type) : Type := world -> state -> result A * state.

Definition ret {A} (a : A) : M A := fun _ s => (Ok a, s).

Definition bind {A B} (c : M A) (k : A -> M B) : M B :=
  fun w s =>
    match c w s with
    | (Ok a, s') => k a w s'
    | (Throw e, s') => (Throw e, s')
    end.

Notation "x <- c ;; k" := (bind c (fun x => k))
  (at level 61, c at next level, right associativity).
Notation "c ;;; k" := (bind c (fun _ => k))
  (at level 61, right associativity).

Definition throw {A} (e : error) : M A := fun _ s => (Throw e, s).

Definition lift {A} (r : result A) : M A := fun _ s => (r, s).

(** [try { body } catch (error) { handler }] *)
Definition try_catch {A} (body : M A) (handler : error -> M A) : M A :=
  fun w s =>
    match body w s with
    | (Ok a, s') => (Ok a, s')
    | (Throw e, s') => handler e w s'
    end.

Definition Math_random : M Double.unit_double :=
  fun w s =>
    (Ok (random w (drawn s)),
     {| drawn := S (drawn s); called := called s; logged := logged s |}).

(** [await axios.get(url)], giving [response.data]. *)
Definition axios_get (url : string) : M value :=
  fun w s =>
    let s' := {| drawn := drawn s; called := called s ++ [url];
                 logged := logged s |} in
    match upstream w url with
    | Resolved data => (Ok data, s')
    | Rejected e => (Throw e, s')
    end.

Definition console_error (label msg : string) : M unit :=
  fun _ s =>
    (Ok tt, {| drawn := drawn s; called := called s;
               logged := logged s ++ [(label ++ " " ++ msg)%string] |}).

(** The value of [process.env.OPENWEATHER_API_KEY]: a string, or [undefined]
    when the variable is not set. *)
Definition credential (w : world) : value :=
  match OPENWEATHER_API_KEY w with
  | Some k => VStr k
  | None => VUndefined
  end.

Definition process_env_OPENWEATHER_API_KEY : M value :=
  fun w s => (Ok (credential w), s).

(** The text of the engine's TypeErrors is V8's; the handlers only pass it
    on. *)
Definition describe (v : value) : string :=
  match v with VNull => "null" | _ => "undefined" end.

(** [v.key], throwing on [null] and [undefined]. *)
Definition member (v : value) (key : string) : M value :=
  if JS.nullish v
  then throw (TypeError ("Cannot read properties of " ++ describe v ++
                         " (reading '" ++ key ++ "')"))
  else ret (JS.get v key).

(** [v[0]], throwing on [null] and [undefined]. *)
Definition member0 (v : value) : M value :=
  if JS.nullish v
  then throw (TypeError ("Cannot read properties of " ++ describe v ++
                         " (reading '0')"))
  else ret (JS.get0 v).

(** [v?.key] *)
Definition optional (v : value) (key : string) : value :=
  if JS.nullish v then VUndefined else JS.get v key.

(** [a || b] *)
Definition or_else (a b : value) : value := if JS.truthy a then a else b.

(** The binding of [const { key, ... } = v]: an object pattern throws on
    [null] and [undefined]. *)
Definition destructure (v : value) (key source : string) : M unit :=
  if JS.nullish v
  then throw (TypeError ("Cannot destructure property '" ++ key ++ "' of '" ++
                         source ++ "' as it is " ++ describe v ++ "."))
  else ret tt.

(** [{ key = dflt }]: the default replaces [undefined] only. *)
Definition default (v dflt : value) : value :=
  match v with VUndefined => dflt | _ => v end.

(** The template literal [`before${v}after`]. *)
Definition template (before : string) (v : value) (after : string) : M string :=
  s <- lift (JS.ToString v) ;; ret (before ++ s ++ after)%string.

(** [v.toLowerCase()]: only a string has the method. *)
Definition toLowerCase (name : string) (v : value) : M string :=
  match v with
  | VStr s => ret (Str.toLowerCase s)
  | VUndefined | VNull =>
      throw (TypeError ("Cannot read properties of " ++ describe v ++
                        " (reading 'toLowerCase')"))
  | _ => throw (TypeError (name ++ ".toLowerCase is not a function"))
  end.

(** [encodeURIComponent(v)] *)
Definition encodeURIComponent (v : value) : M string :=
  s <- lift (JS.ToString v) ;; ret (Str.percent_encode s).

(** [Math.floor(Math.random() * n)] *)
Definition random_below (n : Z) : M Z :=
  r <- Math_random ;; ret (Double.floor (Double.times r n)).

(** [prefix + n] for a number [n] *)
Definition concat_number (prefix : string) (n : Z) : string :=
  (prefix ++ JS.number_to_string (inject_Z n))%string.

(* ================================================================= *)
(** ** Requests and responses *)

(** [req.query] is always an object; [req.body] is what the JSON body
    parser left there. *)
Record request : Type := {
  query : list (string * value);
  body : value
}.

Record response : Type := {
  status : Z;
  json : value
}.

(** [res.json(v)] and [res.status(code).json(v)] *)
Definition res_json (v : value) : response := {| status := 200; json := v |}.
Definition res_status_json (code : Z) (v : value) : response :=
  {| status := code; json := v |}.

(** The [catch] block every handler ends with. *)
Definition catch_500 (label text : string) (e : error) : M response :=
  console_error label (message e) ;;;
  ret (res_status_json 500
         (VObj [("error", VStr text); ("mensaje", VStr (message e))])).

(* ================================================================= *)
(** ** The handlers *)

Definition missing (text : string) : response :=
  res_status_json 400 (VObj [("error", VStr text)]).

(** [app.get('/wiki', ...)]: the [try] block, then the handler with its [catch]. *)
Definition wiki_try (req : request) : M response :=
  let ciudad := JS.assoc (query req) "ciudad" in
  if negb (JS.truthy ciudad) then
    ret (missing "Se requiere el parámetro ciudad")
  else
    c <- encodeURIComponent ciudad ;;
    data <- axios_get
              ("https://es.wikipedia.org/api/rest_v1/page/summary/" ++ c) ;;
    titulo <- member data "title" ;;
    extracto <- member data "extract" ;;
    content_urls <- member data "content_urls" ;;
    let url := or_else (optional (optional content_urls "desktop") "page")
                       (VStr "") in
    thumbnail <- member data "thumbnail" ;;
    let imagen := or_else (optional thumbnail "source") VNull in
    ret (res_json (VObj [("titulo", titulo);
                         ("extracto", extracto);
                         ("url", url);
                         ("imagen", imagen)])).

Definition wiki (req : request) : M response :=
  try_catch (wiki_try req)
    (catch_500 "Error consultando Wikipedia:"
               "Error al consultar Wikipedia").

(** [app.get('/clima', ...)]: the [try] block, then the handler with its [catch]. *)
Definition clima_try (req : request) : M response :=
  let ciudad := JS.assoc (query req) "ciudad" in
  if negb (JS.truthy ciudad) then
    ret (missing "Se requiere el parámetro ciudad")
  else
    API_KEY <- process_env_OPENWEATHER_API_KEY ;;
    if negb (JS.truthy API_KEY) then
      ret (res_status_json 500
             (VObj [("error", VStr "API key de OpenWeather no configurada")]))
    else
      c <- encodeURIComponent ciudad ;;
      url <- template
               ("https://api.openweathermap.org/data/2.5/weather?q=" ++ c ++
                "&units=metric&lang=es&appid=") API_KEY "" ;;
      data <- axios_get url ;;
      name <- member data "name" ;;
      sys <- member data "sys" ;;
      country <- member sys "country" ;;
      main <- member data "main" ;;
      temp <- member main "temp" ;;
      main <- member data "main" ;;
      feels_like <- member main "feels_like" ;;
      main <- member data "main" ;;
      humidity <- member main "humidity" ;;
      weather <- member data "weather" ;;
      weather0 <- member0 weather ;;
      description <- member weather0 "description" ;;
      weather <- member data "weather" ;;
      weather0 <- member0 weather ;;
      icon <- member weather0 "icon" ;;
      icono <- template "https://openweathermap.org/img/wn/" icon "@2x.png" ;;
      ret (res_json (VObj [("ciudad", name);
                           ("pais", country);
                           ("temperatura", temp);
                           ("sensacionTermica", feels_like);
                           ("humedad", humidity);
                           ("condicion", description);
                           ("icono", VStr icono)])).

Definition clima (req : request) : M response :=
  try_catch (clima_try req)
    (catch_500 "Error consultando clima:"
               "Error al consultar el clima").

(** [app.post('/vuelos', ...)]: the [try] block, then the handler with its [catch]. *)
Definition vuelos_try (req : request) : M response :=
  destructure (body req) "origen" "req.body" ;;;
  let origen := JS.get (body req) "origen" in
  let destino := JS.get (body req) "destino" in
  let fecha := JS.get (body req) "fecha" in
  if negb (JS.truthy origen) || negb (JS.truthy destino)
     || negb (JS.truthy fecha) then
    ret (missing "Se requieren los parámetros origen, destino y fecha")
  else
    n1 <- random_below 1000 ;;
    p1 <- random_below 300 ;;
    n2 <- random_below 1000 ;;
    p2 <- random_below 300 ;;
    n3 <- random_below 1000 ;;
    p3 <- random_below 300 ;;
    let vuelos :=
      VArr [
        VObj [("aerolinea", VStr "Avianca");
              ("numeroVuelo", VStr (concat_number "AV" n1));
              ("origen", origen);
              ("destino", destino);
              ("fecha", fecha);
              ("horaSalida", VStr "08:30");
              ("horaLlegada", VStr "10:45");
              ("duracion", VStr "2h 15m");
              ("precio", num (p1 + 200));
              ("moneda", VStr "USD");
              ("escalas", num 0)];
        VObj [("aerolinea", VStr "LATAM");
              ("numeroVuelo", VStr (concat_number "LA" n2));
              ("origen", origen);
              ("destino", destino);
              ("fecha", fecha);
              ("horaSalida", VStr "12:15");
              ("horaLlegada", VStr "14:50");
              ("duracion", VStr "2h 35m");
              ("precio", num (p2 + 180));
              ("moneda", VStr "USD");
              ("escalas", num 1)];
        VObj [("aerolinea", VStr "Copa Airlines");
              ("numeroVuelo", VStr (concat_number "CM" n3));
              ("origen", origen);
              ("destino", destino);
              ("fecha", fecha);
              ("horaSalida", VStr "16:40");
              ("horaLlegada", VStr "19:10");
              ("duracion", VStr "2h 30m");
              ("precio", num (p3 + 220));
              ("moneda", VStr "USD");
              ("escalas", num 0)]] in
    ret (res_json (VObj [("vuelos", vuelos)])).

Definition vuelos (req : request) : M response :=
  try_catch (vuelos_try req)
    (catch_500 "Error buscando vuelos:"
               "Error al buscar vuelos").

(** [app.get('/hospedaje', ...)]: the [try] block, then the handler with its [catch]. *)
Definition hospedaje_try (req : request) : M response :=
  let ciudad := JS.assoc (query req) "ciudad" in
  let fechaEntrada := JS.assoc (query req) "fechaEntrada" in
  let fechaSalida := JS.assoc (query req) "fechaSalida" in
  if negb (JS.truthy ciudad) then
    ret (missing "Se requiere el parámetro ciudad")
  else
    u1 <- template "Centro de " ciudad "" ;;
    p1 <- random_below 100 ;;
    u2 <- template "Zona turística de " ciudad "" ;;
    p2 <- random_below 150 ;;
    u3 <- template "Zona residencial de " ciudad "" ;;
    p3 <- random_below 200 ;;
    let hospedajes :=
      VArr [
        VObj [("nombre", VStr "Apartamento Céntrico");
              ("tipo", VStr "Apartamento entero");
              ("ubicacion", VStr u1);
              ("precio", num (p1 + 50));
              ("moneda", VStr "USD");
              ("porNoche", VBool true);
              ("habitaciones", num 2);
              ("banos", num 1);
              ("capacidad", num 4);
              ("calificacion", VNum 4.8);
              ("opiniones", num 123);
              ("imagen",
               VStr "https://via.placeholder.com/300x200?text=Apartamento")];
        VObj [("nombre", VStr "Hotel Boutique");
              ("tipo", VStr "Habitación de hotel");
              ("ubicacion", VStr u2);
              ("precio", num (p2 + 80));
              ("moneda", VStr "USD");
              ("porNoche", VBool true);
              ("habitaciones", num 1);
              ("banos", num 1);
              ("capacidad", num 2);
              ("calificacion", VNum 4.6);
              ("opiniones", num 87);
              ("imagen",
               VStr "https://via.placeholder.com/300x200?text=Hotel")];
        VObj [("nombre", VStr "Casa Familiar");
              ("tipo", VStr "Casa entera");
              ("ubicacion", VStr u3);
              ("precio", num (p3 + 120));
              ("moneda", VStr "USD");
              ("porNoche", VBool true);
              ("habitaciones", num 3);
              ("banos", num 2);
              ("capacidad", num 6);
              ("calificacion", VNum 4.9);
              ("opiniones", num 45);
              ("imagen",
               VStr "https://via.placeholder.com/300x200?text=Casa")]] in
    ret (res_json (VObj [("hospedajes", hospedajes)])).

Definition hospedaje (req : request) : M response :=
  try_catch (hospedaje_try req)
    (catch_500 "Error buscando hospedaje:"
               "Error al buscar hospedaje").

(** The four arrays of template literals of [/consejos]; every literal ends
    in [${destino}], so each is given by the text before it. *)
Definition negocio : list string :=
  ["Hoteles de negocios cercanos al centro financiero de ";
   "Restaurantes con ambiente tranquilo para reuniones en ";
   "Servicios de taxi o transporte ejecutivo en ";
   "Espacios de coworking populares en ";
   "Conexiones Wi-Fi confiables en "].

Definition aventura : list string :=
  ["Rutas de senderismo populares cerca de ";
   "Empresas de deportes extremos en ";
   "Parques naturales que debes visitar en ";
   "Equipamiento necesario para actividades al aire libre en ";
   "Hospedajes con acceso rápido a actividades de aventura en "].

Definition cultural : list string :=
  ["Museos imperdibles en ";
   "Sitios históricos para visitar en ";
   "Eventos culturales programados en ";
   "Tours guiados por el patrimonio de ";
   "Gastronomía típica que debes probar en "].

Definition vacaciones : list string :=
  ["Atracciones turísticas principales de ";
   "Mejores playas o parques en ";
   "Opciones de entretenimiento familiar en ";
   "Restaurantes mejor valorados de ";
   "Consejos de seguridad para turistas en "].

(** The three budget notes: the text before and after [${destino}]. *)
Definition bajo : string * string :=
  ("Para ahorrar dinero en ",
   ", considera usar transporte público, comer en mercados locales y buscar actividades gratuitas como parques y museos con entrada libre.").

Definition alto : string * string :=
  ("Con un presupuesto alto en ",
   ", puedes disfrutar de hoteles boutique de lujo, restaurantes exclusivos y excursiones privadas personalizadas.").

Definition medio : string * string :=
  ("Con un presupuesto medio en ",
   ", equilibra experiencias premium con opciones más económicas. Considera un hotel de 3-4 estrellas y mezcla restaurantes de diferentes categorías.").

(** An array literal of template literals, evaluated left to right. *)
Fixpoint templates (befores : list string) (v : value) : M (list value) :=
  match befores with
  | [] => ret []
  | b :: rest =>
      s <- template b v "" ;;
      l <- templates rest v ;;
      ret (VStr s :: l)
  end.

(** [app.post('/consejos', ...)]: the [try] block, then the handler with its [catch]. *)
Definition consejos_try (req : request) : M response :=
  destructure (body req) "destino" "req.body" ;;;
  let destino := JS.get (body req) "destino" in
  let tipoViaje := default (JS.get (body req) "tipoViaje")
                           (VStr "vacaciones") in
  let presupuesto := default (JS.get (body req) "presupuesto")
                             (VStr "medio") in
  if negb (JS.truthy destino) then
    ret (missing "Se requiere el parámetro destino")
  else
    t <- toLowerCase "tipoViaje" tipoViaje ;;
    recomendaciones <-
      (if Str.includes t "negocio" then templates negocio destino
       else
         t <- toLowerCase "tipoViaje" tipoViaje ;;
         if Str.includes t "aventura" then templates aventura destino
         else
           t <- toLowerCase "tipoViaje" tipoViaje ;;
           if Str.includes t "cultural" then templates cultural destino
           else templates vacaciones destino) ;;
    p <- toLowerCase "presupuesto" presupuesto ;;
    consejoPresupuesto <-
      (if (p =? "bajo")%string then template (fst bajo) destino (snd bajo)
       else
         p <- toLowerCase "presupuesto" presupuesto ;;
         if (p =? "alto")%string
         then template (fst alto) destino (snd alto)
         else template (fst medio) destino (snd medio)) ;;
    ret (res_json (VObj [("destino", destino);
                         ("tipoViaje", tipoViaje);
                         ("presupuesto", presupuesto);
                         ("recomendaciones", VArr recomendaciones);
                         ("consejoPresupuesto", VStr consejoPresupuesto)])).

Definition consejos (req : request) : M response :=
  try_catch (consejos_try req)
    (catch_500 "Error generando recomendaciones:"
               "Error al generar recomendaciones").

(* ================================================================= *)
(** ** The routes *)

(** The five routes that take parameters ([GET /] and [GET /tools] only
    serve constants). *)
Inductive endpoint : Type :=
| Wiki        (* GET /wiki *)
| Clima       (* GET /clima *)
| Vuelos      (* POST /vuelos *)
| Hospedaje   (* GET /hospedaje *)
| Consejos.   (* POST /consejos *)

Definition attempt (ep : endpoint) : request -> M response :=
  match ep with
  | Wiki => wiki_try
  | Clima => clima_try
  | Vuelos => vuelos_try
  | Hospedaje => hospedaje_try
  | Consejos => consejos_try
  end.

Definition app (ep : endpoint) : request -> M response :=
  match ep with
  | Wiki => wiki
  | Clima => clima
  | Vuelos => vuelos
  | Hospedaje => hospedaje
  | Consejos => consejos
  end.

(** The [required] lists of the tool catalogue that [GET /tools] serves, by
    the route each tool stands for. *)
Definition required (ep : endpoint) : list string :=
  match ep with
  | Wiki => ["ciudad"]
  | Clima => ["ciudad"]
  | Vuelos => ["origen"; "destino"; "fecha"]
  | Hospedaje => ["ciudad"]
  | Consejos => ["destino"]
  end.

(** Where a route reads a parameter: [req.query] for GET, [req.body] for
    POST. *)
Definition parameter (ep : endpoint) (req : request) (name : string) : value :=
  match ep with
  | Vuelos | Consejos => JS.get (body req) name
  | Wiki | Clima | Hospedaje => JS.assoc (query req) name
  end.

(** The [error] text of a route's 400 response, and of its [catch] block. *)
Definition complaint (ep : endpoint) : string :=
  match ep with
  | Wiki | Clima | Hospedaje => "Se requiere el parámetro ciudad"
  | Vuelos => "Se requieren los parámetros origen, destino y fecha"
  | Consejos => "Se requiere el parámetro destino"
  end.

Definition apology (ep : endpoint) : string :=
  match ep with
  | Wiki => "Error al consultar Wikipedia"
  | Clima => "Error al consultar el clima"
  | Vuelos => "Error al buscar vuelos"
  | Hospedaje => "Error al buscar hospedaje"
  | Consejos => "Error al generar recomendaciones"
  end.

(** The JSON body parser leaves an object (or an array) in [req.body]; a
    GET route does not read it. *)
Definition parsed (ep : endpoint) (req : request) : bool :=
  match ep with
  | Vuelos | Consejos => negb (JS.nullish (body req))
  | Wiki | Clima | Hospedaje => true
  end.

(** The URLs the two proxies request. *)
Definition wiki_url (c : string) : string :=
  "https://es.wikipedia.org/api/rest_v1/page/summary/" ++ Str.percent_encode c.

Definition clima_url (c key : string) : string :=
  "https://api.openweathermap.org/data/2.5/weather?q=" ++ Str.percent_encode c
  ++ "&units=metric&lang=es&appid=" ++ key.

(* ================================================================= *)
(** ** Words of the specification *)

(** [word] occurs in [t] when case is ignored. *)
Definition occurs (word t : string) : Prop :=
  exists pre mid post,
    t = (pre ++ mid ++ post)%string /\
    Str.toLowerCase mid = Str.toLowerCase word.

(** [a] and [b] are the same string when case is ignored. *)
Definition same_ignoring_case (a b : string) : Prop :=
  Str.toLowerCase a = Str.toLowerCase b.

(** [s] has [part] as a substring. *)
Definition substring_of (part s : string) : Prop :=
  exists pre post, s = (pre ++ part ++ post)%string.

(** The recommendation templates a trip type selects: business, adventure,
    cultural in that priority, else the general ones. *)
Inductive selects (t : string) : list string -> Prop :=
| selects_negocio :
    occurs "negocio" t -> selects t negocio
| selects_aventura :
    ~ occurs "negocio" t -> occurs "aventura" t -> selects t aventura
| selects_cultural :
    ~ occurs "negocio" t -> ~ occurs "aventura" t -> occurs "cultural" t ->
    selects t cultural
| selects_vacaciones :
    ~ occurs "negocio" t -> ~ occurs "aventura" t -> ~ occurs "cultural" t ->
    selects t vacaciones.

(** The budget note a budget tier selects. *)
Inductive notes (p : string) : string * string -> Prop :=
| notes_bajo : same_ignoring_case p "bajo" -> notes p bajo
| notes_alto : same_ignoring_case p "alto" -> notes p alto
| notes_medio :
    ~ same_ignoring_case p "bajo" -> ~ same_ignoring_case p "alto" ->
    notes p medio.

(** A field that is a string when it is there. *)
Definition optional_string (v : value) : bool :=
  match v with VUndefined | VStr _ => true | _ => false end.

Definition text_or (dflt : string) (v : value) : string :=
  match v with VStr s => s | _ => dflt end.

(** The pattern [^(AV|LA|CM)\d{1,3}$]. *)
Definition is_digit (c : ascii) : bool :=
  let n := nat_of_ascii c in ((48 <=? n) && (n <=? 57))%nat.

Fixpoint all_digits (s : string) : bool :=
  match s with
  | EmptyString => true
  | String c s' => is_digit c && all_digits s'
  end.

Definition flight_number (s : string) : bool :=
  match s with
  | String a (String b digits) =>
      let code := String a (String b EmptyString) in
      ((code =? "AV") || (code =? "LA") || (code =? "CM"))%string &&
      all_digits digits &&
      ((1 <=? String.length digits) && (String.length digits <=? 3))%nat
  | _ => false
  end.

(** The value at the end of a path of properties, [undefined] where a link
    is missing. *)
Definition path (v : value) (keys : list string) : value :=
  fold_left optional keys v.

(** The same world with another random source. *)
Definition with_random (w : world) (r : nat -> Double.unit_double) : world :=
  {| random := r; upstream := upstream w;
     OPENWEATHER_API_KEY := OPENWEATHER_API_KEY w |}.

(** The choice of [/consejos], computed. *)
Definition pick (t : string) : list string :=
  if Str.includes (Str.toLowerCase t) "negocio" then negocio
  else if Str.includes (Str.toLowerCase t) "aventura" then aventura
  else if Str.includes (Str.toLowerCase t) "cultural" then cultural
  else vacaciones.

Definition tier (p : string) : string * string :=
  if (Str.toLowerCase p =? "bajo")%string then bajo
  else if (Str.toLowerCase p =? "alto")%string then alto
  else medio.

(** A flight offer and a lodging offer, field by field. *)
Definition flight_offer (aerolinea numeroVuelo : string)
    (origen destino fecha : value) (horaSalida horaLlegada duracion : string)
    (precio escalas : Z) : value :=
  VObj [("aerolinea", VStr aerolinea);
        ("numeroVuelo", VStr numeroVuelo);
        ("origen", origen);
        ("destino", destino);
        ("fecha", fecha);
        ("horaSalida", VStr horaSalida);
        ("horaLlegada", VStr horaLlegada);
        ("duracion", VStr duracion);
        ("precio", num precio);
        ("moneda", VStr "USD");
        ("escalas", num escalas)].

Definition lodging_offer (nombre tipo ubicacion : string) (precio : Z)
    (habitaciones banos capacidad : Z) (calificacion : Q) (opiniones : Z)
    (imagen : string) : value :=
  VObj [("nombre", VStr nombre);
        ("tipo", VStr tipo);
        ("ubicacion", VStr ubicacion);
        ("precio", num precio);
        ("moneda", VStr "USD");
        ("porNoche", VBool true);
        ("habitaciones", num habitaciones);
        ("banos", num banos);
        ("capacidad", num capacidad);
        ("calificacion", VNum calificacion);
        ("opiniones", num opiniones);
        ("imagen", VStr imagen)].

(** The failures that are not a missing parameter, each with the body it is
    answered with: an outbound call that is rejected, an exception thrown in
    the [try] block, and the missing weather credential. *)
Inductive failure (ep : endpoint) (req : request) (w : world) (s : state)
  : value -> Prop :=
| wiki_rejected (c : string) (e : error) :
    ep = Wiki ->
    JS.truthy (JS.assoc (query req) "ciudad") = true ->
    JS.ToString (JS.assoc (query req) "ciudad") = Ok c ->
    upstream w (wiki_url c) = Rejected e ->
    failure ep req w s
      (VObj [("error", VStr (apology ep)); ("mensaje", VStr (message e))])
| clima_rejected (c k : string) (e : error) :
    ep = Clima ->
    JS.truthy (JS.assoc (query req) "ciudad") = true ->
    JS.ToString (JS.assoc (query req) "ciudad") = Ok c ->
    OPENWEATHER_API_KEY w = Some k -> k <> "" ->
    upstream w (clima_url c k) = Rejected e ->
    failure ep req w s
      (VObj [("error", VStr (apology ep)); ("mensaje", VStr (message e))])
| thrown (e : error) (s' : state) :
    attempt ep req w s = (Throw e, s') ->
    failure ep req w s
      (VObj [("error", VStr (apology ep)); ("mensaje", VStr (message e))])
| no_credential :
    ep = Clima ->
    JS.truthy (JS.assoc (query req) "ciudad") = true ->
    JS.truthy (credential w) = false ->
    failure ep req w s
      (VObj [("error", VStr "API key de OpenWeather no configurada")]).

(** A computation that neither reads the world nor touches the state. *)
Definition pure {A} (c : M A) : Prop :=
  exists r, forall w s, c w s = (r, s).

(* ================================================================= *)
(** ** The constant routes *)

(** [app.get('/', ...)] *)
Definition root (req : request) : M response :=
  ret (res_json
         (VObj [("status", VStr "online");
                ("message", VStr "MCP Travel Assistant API is running");
                ("endpoints", VArr [VStr "/wiki"; VStr "/clima"; VStr "/vuelos";
                                    VStr "/hospedaje"; VStr "/consejos"])])).

(** One entry of the [properties] of a tool, and one tool descriptor. *)
Definition string_property (name description : string) : string * value :=
  (name, VObj [("type", VStr "string"); ("description", VStr description)]).

Definition tool (name description : string) (properties : list (string * value))
    (required : list string) : value :=
  VObj [("name", VStr name);
        ("description", VStr description);
        ("parameters",
         VObj [("type", VStr "object");
               ("properties", VObj properties);
               ("required", VArr (map VStr required))])].

(** The [tools] array of [app.get('/tools', ...)]. *)
Definition catalogue : list value :=
  [tool "consultarWikipedia"
     "Consulta información sobre un destino en Wikipedia"
     [string_property "ciudad" "Nombre de la ciudad o destino a consultar"]
     ["ciudad"];
   tool "consultarClima"
     "Consulta el clima actual en una ciudad específica"
     [string_property "ciudad" "Nombre de la ciudad para consultar el clima"]
     ["ciudad"];
   tool "buscarVuelos"
     "Busca vuelos disponibles entre un origen y destino"
     [string_property "origen" "Ciudad de origen";
      string_property "destino" "Ciudad de destino";
      string_property "fecha" "Fecha del vuelo en formato YYYY-MM-DD"]
     ["origen"; "destino"; "fecha"];
   tool "buscarHospedaje"
     "Busca opciones de hospedaje en un destino específico"
     [string_property "ciudad" "Ciudad donde se busca hospedaje";
      string_property "fechaEntrada" "Fecha de entrada en formato YYYY-MM-DD";
      string_property "fechaSalida" "Fecha de salida en formato YYYY-MM-DD"]
     ["ciudad"];
   tool "obtenerRecomendaciones"
     "Obtiene recomendaciones personalizadas para un viaje"
     [string_property "destino" "Destino del viaje";
      string_property "tipoViaje"
        "Tipo de viaje (negocio, vacaciones, aventura, cultural, etc.)";
      string_property "presupuesto"
        "Presupuesto para el viaje (bajo, medio, alto)"]
     ["destino"]].

Definition tools (req : request) : M response :=
  ret (res_json (VObj [("tools", VArr catalogue)])).

(** The tool that describes a route, and what the catalogue says of it. *)
Definition tool_name (ep : endpoint) : string :=
  match ep with
  | Wiki => "consultarWikipedia"
  | Clima => "consultarClima"
  | Vuelos => "buscarVuelos"
  | Hospedaje => "buscarHospedaje"
  | Consejos => "obtenerRecomendaciones"
  end.

Fixpoint find_tool (name : string) (l : list value) : value :=
  match l with
  | [] => VUndefined
  | t :: rest =>
      match JS.get t "name" with
      | VStr n => if (n =? name)%string then t else find_tool name rest
      | _ => find_tool name rest
      end
  end.

Definition strings (v : value) : list string :=
  match v with
  | VArr items =>
      flat_map (fun x => match x with VStr s => [s] | _ => [] end) items
  | _ => []
  end.

Definition keys (v : value) : list string :=
  match v with VObj props => map fst props | _ => [] end.

Definition catalogue_required (ep : endpoint) : list string :=
  strings (path (find_tool (tool_name ep) catalogue) ["parameters"; "required"]).

Definition catalogue_properties (ep : endpoint) : list string :=
  keys (path (find_tool (tool_name ep) catalogue) ["parameters"; "properties"]).

(** The first argument of [console.error] in a route's [catch] block. *)
Definition label (ep : endpoint) : string :=
  match ep with
  | Wiki => "Error consultando Wikipedia:"
  | Clima => "Error consultando clima:"
  | Vuelos => "Error buscando vuelos:"
  | Hospedaje => "Error buscando hospedaje:"
  | Consejos => "Error generando recomendaciones:"
  end.

(* ================================================================= *)
(** ** Words for what a computation does *)

(** Every response the computation returns satisfies [G]. *)
Definition returns {A} (G : A -> Prop) (c : M A) : Prop :=
  forall w s a s', c w s = (Ok a, s') -> G a.

(** The computation leaves the state in relation [F] to the one it found. *)
Definition frames {A} (F : state -> state -> Prop) (c : M A) : Prop :=
  forall w s, F s (snd (c w s)).

(** The computation does the same in any two worlds that [R] relates. *)
Definition respects {A} (R : world -> world -> Prop) (c : M A) : Prop :=
  forall w1 w2 s, R w1 w2 -> c w1 s = c w2 s.

Definition same_log (s s' : state) : Prop := logged s' = logged s.
Definition same_calls (s s' : state) : Prop := called s' = called s.
Definition same_draws (s s' : state) : Prop := drawn s' = drawn s.

(** What a [try] block returns: never a [mensaje], and a 500 only for the
    missing credential. *)
Definition plain (resp : response) : Prop :=
  JS.get (json resp) "mensaje" = VUndefined /\
  (status resp = 200 \/ status resp = 400 \/
   resp = res_status_json 500
            (VObj [("error", VStr "API key de OpenWeather no configurada")])).

(** What a handler can read of the world, and the routes that read it. *)
Inductive resource : Type :=
| RandomSource        (* Math.random *)
| UpstreamServices    (* axios.get *)
| Credential.         (* process.env.OPENWEATHER_API_KEY *)

Definition uses (ep : endpoint) (r : resource) : bool :=
  match ep, r with
  | Wiki, UpstreamServices => true
  | Clima, UpstreamServices => true
  | Clima, Credential => true
  | Vuelos, RandomSource => true
  | Hospedaje, RandomSource => true
  | _, _ => false
  end.

(** Two worlds are the same as far as a resource goes. *)
Definition agree (r : resource) (w1 w2 : world) : Prop :=
  match r with
  | RandomSource => forall i, random w1 i = random w2 i
  | UpstreamServices => forall url, upstream w1 url = upstream w2 url
  | Credential => OPENWEATHER_API_KEY w1 = OPENWEATHER_API_KEY w2
  end.

(** The state after one more outbound call, after [n] more draws, after one
    more log line. *)
Definition after_call (s : state) (url : string) : state :=
  {| drawn := drawn s; called := called s ++ [url]; logged := logged s |}.

Definition after_draws (s : state) (n : nat) : state :=
  {| drawn := (n + drawn s)%nat; called := called s; logged := logged s |}.

Definition after_log (s : state) (line : string) : state :=
  {| drawn := drawn s; called := called s; logged := logged s ++ [line] |}.

(** The double [m * 2^(-53)], for [m] below [2^53] (0 otherwise). *)
Definition dyadic (m : Z) : Double.unit_double :=
  match Sumbool.sumbool_of_bool (Double.in_unit m 53) with
  | left H => {| Double.mant := m; Double.expo := 53; Double.in_range := H |}
  | right _ => {| Double.mant := 0; Double.expo := 53;
                  Double.in_range := eq_refl |}
  end.

(** The smallest multiple of [2^(-53)] that is at least [k / n]. *)
Definition at_least (k n : Z) : Double.unit_double :=
  dyadic ((k * 2 ^ 53 + n - 1) / n).

(** A random source that gives the doubles of [l] from draw [from] on. *)
Definition source (l : list Double.unit_double) (from : nat)
  : nat -> Double.unit_double :=
  fun i => nth (i - from) l (dyadic 0).

(** An upstream weather answer that the mapping of [/clima] can read: the
    objects it reaches into are there, and the icon code prints as [i]. *)
Definition readable_weather (data : value) (i : string) : Prop :=
  JS.nullish data = false /\
  JS.nullish (JS.get data "sys") = false /\
  JS.nullish (JS.get data "main") = false /\
  JS.nullish (JS.get data "weather") = false /\
  JS.nullish (JS.get0 (JS.get data "weather")) = false /\
  JS.ToString (JS.get (JS.get0 (JS.get data "weather")) "icon") = Ok i.

(** The weather report that [/clima] makes of it. *)
Definition weather_report (data : value) (i : string) : value :=
  VObj [("ciudad", JS.get data "name");
        ("pais", JS.get (JS.get data "sys") "country");
        ("temperatura", JS.get (JS.get data "main") "temp");
        ("sensacionTermica", JS.get (JS.get data "main") "feels_like");
        ("humedad", JS.get (JS.get data "main") "humidity");
        ("condicion",
         JS.get (JS.get0 (JS.get data "weather")) "description");
        ("icono",
         VStr ("https://openweathermap.org/img/wn/" ++ i ++ "@2x.png"))].

(** The summary that [/wiki] makes of an upstream answer. *)
Definition wiki_summary_of (data : value) : value :=
  VObj [("titulo", JS.get data "title");
        ("extracto", JS.get data "extract");
        ("url", or_else (path data ["content_urls"; "desktop"; "page"])
                        (VStr ""));
        ("imagen", or_else (path data ["thumbnail"; "source"]) VNull)].

(** The value of a hexadecimal digit of [Str.hex_digit]. *)
Definition hex_value (c : ascii) : nat :=
  let n := nat_of_ascii c in if (n <? 58)%nat then n - 48 else n - 55.

(** The characters of an encoded URI component. *)
Definition uri_safe (c : ascii) : bool :=
  Str.unreserved c || (c =? "%")%char ||
  Str.includes "0123456789ABCDEF" (String c EmptyString).

Fixpoint all_chars (p : ascii -> bool) (s : string) : bool :=
  match s with
  | EmptyString => true
  | String c s' => p c && all_chars p s'
  end.

(* ================================================================= *)
(** ** Sample requests and worlds *)

Module Sample.

Definition zero : Double.unit_double :=
  {| Double.mant := 0; Double.expo := 53; Double.in_range := eq_refl |}.

Definition one_half : Double.unit_double :=
  {| Double.mant := 2 ^ 52; Double.expo := 53; Double.in_range := eq_refl |}.

(** The largest double below 1. *)
Definition almost_one : Double.unit_double :=
  {| Double.mant := 2 ^ 53 - 1; Double.expo := 53;
     Double.in_range := eq_refl |}.

Definition post (fields : list (string * value)) : request :=
  {| query := []; body := VObj fields |}.

Definition get (fields : list (string * value)) : request :=
  {| query := fields; body := VObj [] |}.

Definition lima_summary : value :=
  VObj [("title", VStr "Lima");
        ("extract", VStr "Lima es la capital del Perú.");
        ("content_urls",
         VObj [("desktop",
                VObj [("page", VStr "https://es.wikipedia.org/wiki/Lima")])]);
        ("thumbnail",
         VObj [("source", VStr "https://upload.wikimedia.org/lima.jpg")])].

(** An upstream that knows Lima and fails on everything else. *)
Definition encyclopedia (url : string) : outcome :=
  if (url =? wiki_url "Lima")%string then Resolved lima_summary
  else Rejected (AxiosError "Request failed with status code 404").

(** No weather credential configured. *)
Definition offline : world :=
  {| random := fun _ => zero;
     upstream := encyclopedia;
     OPENWEATHER_API_KEY := None |}.

Definition configured : world :=
  {| random := fun _ => one_half;
     upstream := encyclopedia;
     OPENWEATHER_API_KEY := Some "k3y" |}.

Definition paris_aventura : request :=
  post [("destino", VStr "Paris"); ("tipoViaje", VStr "aventura")].

Definition paris_bajo : request :=
  post [("destino", VStr "Paris"); ("presupuesto", VStr "bajo")].

Definition bogota_lima : request :=
  post [("origen", VStr "Bogota"); ("destino", VStr "Lima");
        ("fecha", VStr "2024-05-01")].

Definition ciudad_lima : request := get [("ciudad", VStr "Lima")].

Definition ciudad_lima_fechas : request :=
  get [("ciudad", VStr "Lima"); ("fechaEntrada", VStr "2024-05-01");
       ("fechaSalida", VStr "2024-05-08")].

Definition ciudad_cusco : request := get [("ciudad", VStr "Cusco")].

Definition ciudad_vacia : request := get [("ciudad", VStr "")].

Definition sin_parametros : request := get [].

(** The smallest positive double. *)
Definition tiny : Double.unit_double :=
  {| Double.mant := 1; Double.expo := 1074; Double.in_range := eq_refl |}.

Definition lima_weather : value :=
  VObj [("name", VStr "Lima");
        ("sys", VObj [("country", VStr "PE")]);
        ("main", VObj [("temp", VNum 18.5); ("feels_like", VNum 18.2);
                       ("humidity", num 82)]);
        ("weather", VArr [VObj [("description", VStr "nubes");
                                ("icon", VStr "04d")]])].

(** A weather service that knows Lima, and one that answers without the
    [sys] object. *)
Definition weather (url : string) : outcome :=
  if (url =? clima_url "Lima" "k3y")%string then Resolved lima_weather
  else Rejected (AxiosError "Request failed with status code 404").

Definition forecast : world :=
  {| random := fun _ => almost_one;
     upstream := weather;
     OPENWEATHER_API_KEY := Some "k3y" |}.

Definition truncated : world :=
  {| random := fun _ => almost_one;
     upstream := fun _ => Resolved (VObj [("name", VStr "Lima")]);
     OPENWEATHER_API_KEY := Some "k3y" |}.

End Sample.

(* ================================================================= *)
(** * Properties *)

(** ** Strings *)

Section StringFacts.

Lemma append_empty (s : string) : (s ++ "")%string = s.
Proof. induction s as [|c s IH]; simpl; [reflexivity | now rewrite IH]. Qed.

Lemma append_assoc (a b c : string) :
  ((a ++ b) ++ c)%string = (a ++ b ++ c)%string.
Proof. induction a as [|x a IH]; simpl; [reflexivity | now rewrite IH]. Qed.

Lemma prefix_spec (n s : string) :
  prefix n s = true <-> exists post, s = (n ++ post)%string.
Proof.
  revert s. induction n as [|a n IH]; intros s; simpl.
  - split; [intros _; exists s; reflexivity | destruct s; reflexivity].
  - destruct s as [|b s]; simpl.
    + split; [discriminate | intros [post H]; discriminate].
    + destruct (ascii_dec a b) as [->|Hab].
      * rewrite IH. split; intros [post H]; exists post.
        -- now rewrite H.
        -- now injection H.
      * split; [discriminate|].
        intros [post H]. injection H as H1 _. congruence.
Qed.

Lemma includes_spec (s n : string) :
  Str.includes s n = true <-> substring_of n s.
Proof.
  unfold substring_of. induction s as [|c s IH]; cbn [Str.includes].
  - rewrite orb_false_r, prefix_spec. split.
    + intros [post H]. exists EmptyString, post. exact H.
    + intros [[|x pre] [post H]]; [exists post; exact H | discriminate].
  - rewrite orb_true_iff, prefix_spec, IH. split.
    + intros [[post H] | [pre [post H]]].
      * exists EmptyString, post. exact H.
      * exists (String c pre), post. simpl. now rewrite H.
    + intros [[|x pre] [post H]].
      * left. exists post. exact H.
      * right. exists pre, post. simpl in H. now injection H.
Qed.

Lemma includes_append (pre part : string) :
  Str.includes (pre ++ part) part = true.
Proof.
  apply includes_spec. exists pre, EmptyString.
  now rewrite append_empty.
Qed.

Lemma toLowerCase_app (a b : string) :
  Str.toLowerCase (a ++ b) = (Str.toLowerCase a ++ Str.toLowerCase b)%string.
Proof. induction a as [|c a IH]; simpl; [reflexivity | now rewrite IH]. Qed.

Lemma toLowerCase_split (t a b : string) :
  Str.toLowerCase t = (a ++ b)%string ->
  exists ta tb, t = (ta ++ tb)%string /\
                Str.toLowerCase ta = a /\ Str.toLowerCase tb = b.
Proof.
  revert t. induction a as [|c a IH]; intros t H; simpl in H.
  - exists EmptyString, t. auto.
  - destruct t as [|x t]; simpl in H; [discriminate|].
    injection H as Hx Ht. destruct (IH _ Ht) as (ta & tb & -> & Ha & Hb).
    exists (String x ta), tb. simpl. rewrite Ha, Hx. auto.
Qed.

(** [t.toLowerCase().includes(word)], for a lower-case [word], says that
    [word] occurs in [t] when case is ignored. *)
Lemma includes_lower_occurs (t word : string) :
  Str.toLowerCase word = word ->
  Str.includes (Str.toLowerCase t) word = true <-> occurs word t.
Proof.
  intros Hw. rewrite includes_spec. unfold substring_of, occurs. split.
  - intros (pre & post & H).
    apply toLowerCase_split in H as (tpre & rest & -> & _ & H).
    apply toLowerCase_split in H as (mid & tpost & -> & Hmid & _).
    exists tpre, mid, tpost. rewrite Hw. auto.
  - intros (pre & mid & post & -> & H).
    exists (Str.toLowerCase pre), (Str.toLowerCase post).
    now rewrite !toLowerCase_app, H, Hw.
Qed.

End StringFacts.

(** ** Binary64 rounding *)

Section DoubleFacts.

Lemma unit_bounds (r : Double.unit_double) :
  0 <= Double.mant r < 2 ^ 53 /\ 53 <= Double.expo r <= 1074.
Proof.
  destruct r as [m e H]; simpl. unfold Double.in_unit in H.
  repeat (apply andb_prop in H; destruct H as [H ?]).
  lia.
Qed.

Lemma round53_nonneg N : 0 <= N -> 0 <= Double.round53 N.
Proof.
  intros HN. unfold Double.round53.
  destruct (N <? 2 ^ 53) eqn:E; [lia|].
  apply Z.ltb_ge in E.
  assert (Hk : 1 <= Z.log2 N - 52).
  { assert (53 <= Z.log2 N) by (apply Z.log2_le_pow2; lia). lia. }
  set (k := Z.log2 N - 52) in *.
  assert (0 < 2 ^ k) by (apply Z.pow_pos_nonneg; lia).
  assert (0 <= N / 2 ^ k) by (apply Z.div_pos; lia).
  apply Z.mul_nonneg_nonneg; [|lia].
  repeat match goal with |- context [if ?c then _ else _] => destruct c end; lia.
Qed.

(** Rounding moves a number up by at most half a unit in the last place. *)
Lemma round53_upper N b :
  0 <= N < 2 ^ (53 + b) -> 0 <= b -> Double.round53 N <= N + 2 ^ (b - 1).
Proof.
  intros [HN Hlt] Hb. unfold Double.round53.
  destruct (N <? 2 ^ 53) eqn:E.
  { assert (0 <= 2 ^ (b - 1)) by (apply Z.pow_nonneg; lia). lia. }
  apply Z.ltb_ge in E.
  assert (H53 : 53 <= Z.log2 N) by (apply Z.log2_le_pow2; lia).
  assert (Hlog : Z.log2 N < 53 + b) by (apply Z.log2_lt_pow2; lia).
  set (k := Z.log2 N - 52) in *.
  assert (Hk : 1 <= k <= b) by lia.
  assert (Hpow : 2 ^ k = 2 * 2 ^ (k - 1)).
  { replace k with (Z.succ (k - 1)) at 1 by lia. apply Z.pow_succ_r. lia. }
  assert (Hhalf : 0 < 2 ^ (k - 1)) by (apply Z.pow_pos_nonneg; lia).
  assert (Hmono : 2 ^ (k - 1) <= 2 ^ (b - 1)) by (apply Z.pow_le_mono_r; lia).
  pose proof (Z.div_mod N (2 ^ k) ltac:(lia)) as Hdm.
  pose proof (Z.mod_pos_bound N (2 ^ k) ltac:(lia)) as Hr.
  set (q := N / 2 ^ k) in *. set (r := N mod 2 ^ k) in *.
  destruct (r <? 2 ^ (k - 1)) eqn:E1; [apply Z.ltb_lt in E1; nia|].
  apply Z.ltb_ge in E1.
  assert ((q + 1) * 2 ^ k <= N + 2 ^ (b - 1)) by nia.
  destruct (2 ^ (k - 1) <? r); [assumption|].
  destruct (Z.even q); [nia | assumption].
Qed.

(** [Math.floor(Math.random() * n)] is one of 0, ..., n - 1, for every
    integer [n] of [b] bits. *)
Lemma floor_times_range (r : Double.unit_double) (n b : Z) :
  0 <= b -> 2 ^ (b - 1) < n <= 2 ^ b ->
  0 <= Double.floor (Double.times r n) < n.
Proof.
  intros Hb [Hlo Hhi].
  destruct (unit_bounds r) as [[Hm0 Hm] [He _]].
  unfold Double.floor, Double.times; simpl.
  assert (Hn : 0 < n).
  { assert (0 <= 2 ^ (b - 1)) by (apply Z.pow_nonneg; lia). lia. }
  assert (HN : 0 <= Double.mant r * n) by nia.
  assert (H2b : 0 < 2 ^ b) by (apply Z.pow_pos_nonneg; lia).
  assert (Hsplit : 2 ^ (53 + b) = 2 ^ 53 * 2 ^ b) by (apply Z.pow_add_r; lia).
  assert (Hlt : Double.mant r * n < 2 ^ (53 + b)) by nia.
  pose proof (round53_nonneg _ HN) as H0.
  pose proof (round53_upper (Double.mant r * n) b (conj HN Hlt) Hb) as Hup.
  assert (He2 : 2 ^ 53 <= 2 ^ Double.expo r) by (apply Z.pow_le_mono_r; lia).
  assert (Hpe : 0 < 2 ^ Double.expo r) by lia.
  split.
  - apply Z.div_pos; lia.
  - apply Z.div_lt_upper_bound; [lia|]. nia.
Qed.

End DoubleFacts.

(** ** Numbers as text *)

Section NumberFacts.

Lemma below_1000 (P : Z -> bool) :
  forallb P (map Z.of_nat (seq 0 1000)) = true ->
  forall n, 0 <= n < 1000 -> P n = true.
Proof.
  intros H n Hn. rewrite forallb_forall in H. apply H.
  rewrite <- (Z2Nat.id n) by lia.
  apply in_map, in_seq. lia.
Qed.

(** An integer of 0..999 prints as its decimal digits. *)
Lemma number_to_string_integer (n : Z) :
  0 <= n < 1000 -> JS.number_to_string (inject_Z n) = Str.of_nonneg n.
Proof.
  intros Hn. apply String.eqb_eq. revert n Hn.
  apply (below_1000
           (fun n => (JS.number_to_string (inject_Z n) =? Str.of_nonneg n)
                     %string)).
  vm_compute. reflexivity.
Qed.


(** A flight code followed by an integer of 0..999 has the shape
    [^(AV|LA|CM)\d{1,3}$]. *)
Lemma flight_number_ok (code : string) (n : Z) :
  In code ["AV"; "LA"; "CM"] -> 0 <= n < 1000 ->
  flight_number (concat_number code n) = true.
Proof.
  intros Hc Hn. revert n Hn.
  destruct Hc as [<-|[<-|[<-|[]]]];
    apply (below_1000 (fun n => flight_number (concat_number _ n)));
    vm_compute; reflexivity.
Qed.

End NumberFacts.

(** ** The monad *)

Section MonadFacts.

Context {A B : Type}.

Lemma pure_ret (a : A) : pure (ret a).
Proof. exists (Ok a). reflexivity. Qed.

Lemma pure_throw (e : error) : pure (@throw A e).
Proof. exists (Throw e). reflexivity. Qed.

Lemma pure_lift (r : result A) : pure (lift r).
Proof. exists r. reflexivity. Qed.

Lemma pure_bind (c : M A) (k : A -> M B) :
  pure c -> (forall a, pure (k a)) -> pure (bind c k).
Proof.
  intros [r Hc] Hk. destruct r as [a|e].
  - destruct (Hk a) as [r Hka]. exists r. intros w s.
    unfold bind. now rewrite Hc, Hka.
  - exists (Throw e). intros w s. unfold bind. now rewrite Hc.
Qed.

Lemma pure_if (b : bool) (c1 c2 : M A) :
  pure c1 -> pure c2 -> pure (if b then c1 else c2).
Proof. now destruct b. Qed.

Lemma bind_ok (c : M A) (k : A -> M B) w s a s' :
  c w s = (Ok a, s') -> bind c k w s = k a w s'.
Proof. intros H. unfold bind. now rewrite H. Qed.

Lemma bind_throw (c : M A) (k : A -> M B) w s e s' :
  c w s = (Throw e, s') -> bind c k w s = (Throw e, s').
Proof. intros H. unfold bind. now rewrite H. Qed.

Lemma try_ok (c : M A) (h : error -> M A) w s a s' :
  c w s = (Ok a, s') -> try_catch c h w s = (Ok a, s').
Proof. intros H. unfold try_catch. now rewrite H. Qed.

Lemma try_throw (c : M A) (h : error -> M A) w s e s' :
  c w s = (Throw e, s') -> try_catch c h w s = h e w s'.
Proof. intros H. unfold try_catch. now rewrite H. Qed.

End MonadFacts.

Create HintDb purity.
#[local] Hint Resolve pure_ret pure_throw pure_lift pure_if : purity.

Section HelperFacts.

Lemma pure_template before v after : pure (template before v after).
Proof. apply pure_bind; auto with purity. Qed.

Lemma pure_templates befores v : pure (templates befores v).
Proof.
  induction befores as [|b l IH]; simpl; auto with purity.
  apply pure_bind; [apply pure_template|]. intros s.
  apply pure_bind; auto with purity.
Qed.

Lemma pure_toLowerCase name v : pure (toLowerCase name v).
Proof. destruct v; simpl; auto with purity. Qed.

Lemma pure_destructure v key source : pure (destructure v key source).
Proof. unfold destructure. auto with purity. Qed.

Lemma template_string before d after w s :
  template before (VStr d) after w s = (Ok (before ++ d ++ after)%string, s).
Proof. reflexivity. Qed.

Lemma templates_string befores d w s :
  templates befores (VStr d) w s =
  (Ok (map (fun b => VStr (b ++ d)%string) befores), s).
Proof.
  induction befores as [|b l IH]; [reflexivity|].
  cbn [templates map].
  rewrite (bind_ok _ _ _ _ _ _ (template_string b d "" w s)).
  rewrite (bind_ok _ _ _ _ _ _ IH).
  now rewrite append_empty.
Qed.

Lemma catch_500_run label text e w s :
  catch_500 label text e w s =
  (Ok (res_status_json 500
         (VObj [("error", VStr text); ("mensaje", VStr (message e))])),
   {| drawn := drawn s; called := called s;
      logged := logged s ++ [(label ++ " " ++ message e)%string] |}).
Proof. reflexivity. Qed.

Lemma random_below_run n w s :
  random_below n w s =
  (Ok (Double.floor (Double.times (random w (drawn s)) n)),
   {| drawn := S (drawn s); called := called s; logged := logged s |}).
Proof. reflexivity. Qed.

End HelperFacts.

#[local] Hint Resolve pure_template pure_templates pure_toLowerCase
  pure_destructure : purity.

(** ** [/consejos] *)

Section ConsejosFacts.

Lemma pick_selects (t : string) : selects t (pick t).
Proof.
  unfold pick.
  destruct (Str.includes (Str.toLowerCase t) "negocio") eqn:E1.
  { apply selects_negocio. now apply includes_lower_occurs. }
  assert (N1 : ~ occurs "negocio" t).
  { intros H. apply includes_lower_occurs in H; [congruence | reflexivity]. }
  destruct (Str.includes (Str.toLowerCase t) "aventura") eqn:E2.
  { apply selects_aventura; [assumption|]. now apply includes_lower_occurs. }
  assert (N2 : ~ occurs "aventura" t).
  { intros H. apply includes_lower_occurs in H; [congruence | reflexivity]. }
  destruct (Str.includes (Str.toLowerCase t) "cultural") eqn:E3.
  { apply selects_cultural; try assumption. now apply includes_lower_occurs. }
  apply selects_vacaciones; try assumption.
  intros H. apply includes_lower_occurs in H; [congruence | reflexivity].
Qed.

(** Each trip type selects one list, each tier one note. *)
Lemma selects_functional (t : string) (T1 T2 : list string) :
  selects t T1 -> selects t T2 -> T1 = T2.
Proof. intros [] []; reflexivity || contradiction. Qed.

Lemma notes_functional (p : string) (N1 N2 : string * string) :
  notes p N1 -> notes p N2 -> N1 = N2.
Proof.
  intros [H1|H1|H1 H1'] [H2|H2|H2 H2']; try reflexivity; try contradiction;
    unfold same_ignoring_case in H1, H2; rewrite H1 in H2; discriminate.
Qed.

Lemma tier_notes (p : string) : notes p (tier p).
Proof.
  unfold tier.
  destruct (String.eqb_spec (Str.toLowerCase p) "bajo") as [E1|N1].
  { now apply notes_bajo. }
  destruct (String.eqb_spec (Str.toLowerCase p) "alto") as [E2|N2].
  { now apply notes_alto. }
  now apply notes_medio.
Qed.

(** What [/consejos] answers when its fields are strings. *)
Lemma consejos_run (req : request) (w : world) (s : state) (d : string) :
  JS.get (body req) "destino" = VStr d -> d <> "" ->
  optional_string (JS.get (body req) "tipoViaje") = true ->
  optional_string (JS.get (body req) "presupuesto") = true ->
  let t := text_or "vacaciones" (JS.get (body req) "tipoViaje") in
  let p := text_or "medio" (JS.get (body req) "presupuesto") in
  consejos req w s =
  (Ok (res_json
         (VObj [("destino", VStr d);
                ("tipoViaje", VStr t);
                ("presupuesto", VStr p);
                ("recomendaciones",
                 VArr (map (fun b => VStr (b ++ d)%string) (pick t)));
                ("consejoPresupuesto",
                 VStr (fst (tier p) ++ d ++ snd (tier p))%string)])), s).
Proof.
  intros Hd Hne Ht Hp t p.
  assert (Hb : JS.nullish (body req) = false).
  { destruct (body req); try discriminate; reflexivity. }
  assert (Hdt : default (JS.get (body req) "tipoViaje") (VStr "vacaciones")
                = VStr t).
  { subst t. destruct (JS.get (body req) "tipoViaje"); try discriminate;
      reflexivity. }
  assert (Hdp : default (JS.get (body req) "presupuesto") (VStr "medio")
                = VStr p).
  { subst p. destruct (JS.get (body req) "presupuesto"); try discriminate;
      reflexivity. }
  unfold consejos. apply try_ok.
  unfold consejos_try, destructure. rewrite Hb, Hd, Hdt, Hdp.
  assert (Htr : JS.truthy (VStr d) = true).
  { simpl. destruct (String.eqb_spec d ""); [contradiction | reflexivity]. }
  rewrite Htr. cbn [negb].
  unfold bind at 1. cbn [ret].
  unfold bind at 1. cbn [toLowerCase ret].
  assert (Hrec : forall w s,
    (if Str.includes (Str.toLowerCase t) "negocio"
     then templates negocio (VStr d)
     else
       t0 <- toLowerCase "tipoViaje" (VStr t) ;;
       if Str.includes t0 "aventura" then templates aventura (VStr d)
       else
         t1 <- toLowerCase "tipoViaje" (VStr t) ;;
         if Str.includes t1 "cultural" then templates cultural (VStr d)
         else templates vacaciones (VStr d)) w s =
    (Ok (map (fun b => VStr (b ++ d)%string) (pick t)), s)).
  { intros w' s'. unfold pick.
    destruct (Str.includes (Str.toLowerCase t) "negocio");
      [apply templates_string|].
    unfold bind at 1. cbn [toLowerCase ret].
    destruct (Str.includes (Str.toLowerCase t) "aventura");
      [apply templates_string|].
    unfold bind at 1. cbn [toLowerCase ret].
    destruct (Str.includes (Str.toLowerCase t) "cultural");
      apply templates_string. }
  rewrite (bind_ok _ _ _ _ _ _ (Hrec w s)).
  unfold bind at 1. cbn [toLowerCase ret].
  assert (Hnote : forall w s,
    (if (Str.toLowerCase p =? "bajo")%string
     then template (fst bajo) (VStr d) (snd bajo)
     else
       p0 <- toLowerCase "presupuesto" (VStr p) ;;
       if (p0 =? "alto")%string
       then template (fst alto) (VStr d) (snd alto)
       else template (fst medio) (VStr d) (snd medio)) w s =
    (Ok (fst (tier p) ++ d ++ snd (tier p))%string, s)).
  { intros w' s'. unfold tier.
    destruct (Str.toLowerCase p =? "bajo")%string;
      [apply template_string|].
    unfold bind at 1. cbn [toLowerCase ret].
    destruct (Str.toLowerCase p =? "alto")%string; apply template_string. }
  rewrite (bind_ok _ _ _ _ _ _ (Hnote w s)).
  reflexivity.
Qed.

Lemma pure_consejos_try (req : request) : pure (consejos_try req).
Proof.
  unfold consejos_try.
  apply pure_bind; [auto with purity|]. intros _.
  apply pure_if; [auto with purity|].
  apply pure_bind; [auto with purity|]. intros t.
  apply pure_bind.
  { repeat (apply pure_if || (apply pure_bind; [|intro]));
      auto with purity. }
  intros r.
  apply pure_bind; [auto with purity|]. intros p.
  apply pure_bind; [|auto with purity].
  repeat (apply pure_if || (apply pure_bind; [|intro])); auto with purity.
Qed.

End ConsejosFacts.

(** C1: for every POST /consejos request whose [destino] is a non-empty
    string (and whose optional fields are strings when present), the answer
    is 200 and its [recomendaciones] are the five strings of one of the four
    fixed templates, each with [destino] appended, in the template's order.
    The template is chosen by looking for "negocio", then "aventura", then
    "cultural" in [tipoViaje] with case ignored; the first that occurs wins,
    and when none does, as for a missing [tipoViaje] or for "vacaciones",
    the general template is used. *)
Theorem consejos_recomendaciones
    (req : request) (w : world) (s : state) (d : string) :
  JS.get (body req) "destino" = VStr d -> d <> "" ->
  optional_string (JS.get (body req) "tipoViaje") = true ->
  optional_string (JS.get (body req) "presupuesto") = true ->
  exists resp T,
    fst (consejos req w s) = Ok resp /\
    status resp = 200 /\
    selects (text_or "vacaciones" (JS.get (body req) "tipoViaje")) T /\
    JS.get (json resp) "recomendaciones" =
      VArr (map (fun before => VStr (before ++ d)%string) T) /\
    length T = 5%nat /\
    (JS.get (body req) "tipoViaje" = VUndefined -> T = vacaciones) /\
    (JS.get (body req) "tipoViaje" = VStr "vacaciones" -> T = vacaciones).
Proof.
  intros Hd Hne Ht Hp.
  pose proof (consejos_run req w s d Hd Hne Ht Hp) as Hrun. cbv zeta in Hrun.
  eexists. exists (pick (text_or "vacaciones" (JS.get (body req) "tipoViaje"))).
  rewrite Hrun. cbn [fst].
  split; [reflexivity|]. split; [reflexivity|].
  split; [apply pick_selects|]. split; [reflexivity|].
  split.
  - unfold pick.
    repeat match goal with |- context [if ?c then _ else _] => destruct c end;
      reflexivity.
  - split; intros ->; reflexivity.
Qed.

Lemma consejos_recomendaciones_witness :
  JS.get (body Sample.paris_aventura) "destino" = VStr "Paris" /\
  exists resp T,
    fst (consejos Sample.paris_aventura Sample.offline start) = Ok resp /\
    status resp = 200 /\
    selects (text_or "vacaciones"
               (JS.get (body Sample.paris_aventura) "tipoViaje")) T /\
    JS.get (json resp) "recomendaciones" =
      VArr (map (fun before => VStr (before ++ "Paris")%string) T) /\
    length T = 5%nat /\
    (JS.get (body Sample.paris_aventura) "tipoViaje" = VUndefined ->
     T = vacaciones) /\
    (JS.get (body Sample.paris_aventura) "tipoViaje" = VStr "vacaciones" ->
     T = vacaciones).
Proof.
  split; [reflexivity|].
  apply (consejos_recomendaciones Sample.paris_aventura Sample.offline start
           "Paris"); [reflexivity | discriminate | reflexivity | reflexivity].
Defined.

(** C5: for every POST /consejos request whose [destino] is a non-empty
    string, [consejoPresupuesto] is the low-budget note when [presupuesto]
    is "bajo" with case ignored, the high-budget note when it is "alto", and
    the medium-budget note for every other string and when it is missing;
    [destino] stands in the middle of the note; and a request that differs
    only in [tipoViaje] gets the same note. *)
Theorem consejos_presupuesto
    (req : request) (w : world) (s : state) (d : string) :
  JS.get (body req) "destino" = VStr d -> d <> "" ->
  optional_string (JS.get (body req) "tipoViaje") = true ->
  optional_string (JS.get (body req) "presupuesto") = true ->
  exists resp N,
    fst (consejos req w s) = Ok resp /\
    status resp = 200 /\
    notes (text_or "medio" (JS.get (body req) "presupuesto")) N /\
    JS.get (json resp) "consejoPresupuesto" =
      VStr (fst N ++ d ++ snd N)%string /\
    (JS.get (body req) "presupuesto" = VUndefined -> N = medio) /\
    forall req' w' s',
      JS.get (body req') "destino" = VStr d ->
      JS.get (body req') "presupuesto" = JS.get (body req) "presupuesto" ->
      optional_string (JS.get (body req') "tipoViaje") = true ->
      exists resp',
        fst (consejos req' w' s') = Ok resp' /\
        JS.get (json resp') "consejoPresupuesto" =
        JS.get (json resp) "consejoPresupuesto".
Proof.
  intros Hd Hne Ht Hp.
  pose proof (consejos_run req w s d Hd Hne Ht Hp) as Hrun. cbv zeta in Hrun.
  eexists. exists (tier (text_or "medio" (JS.get (body req) "presupuesto"))).
  rewrite Hrun. cbn [fst].
  split; [reflexivity|]. split; [reflexivity|].
  split; [apply tier_notes|]. split; [reflexivity|].
  split; [intros ->; reflexivity|].
  intros req' w' s' Hd' Hp' Ht'.
  assert (Hp2 : optional_string (JS.get (body req') "presupuesto") = true)
    by now rewrite Hp'.
  pose proof (consejos_run req' w' s' d Hd' Hne Ht' Hp2) as Hrun'.
  cbv zeta in Hrun'.
  eexists. rewrite Hrun'. cbn [fst]. split; [reflexivity|].
  rewrite Hp'. reflexivity.
Qed.

Lemma consejos_presupuesto_witness :
  JS.get (body Sample.paris_bajo) "presupuesto" = VStr "bajo" /\
  exists resp N,
    fst (consejos Sample.paris_bajo Sample.offline start) = Ok resp /\
    status resp = 200 /\
    notes (text_or "medio" (JS.get (body Sample.paris_bajo) "presupuesto")) N /\
    JS.get (json resp) "consejoPresupuesto" =
      VStr (fst N ++ "Paris" ++ snd N)%string /\
    (JS.get (body Sample.paris_bajo) "presupuesto" = VUndefined -> N = medio) /\
    forall req' w' s',
      JS.get (body req') "destino" = VStr "Paris" ->
      JS.get (body req') "presupuesto" =
        JS.get (body Sample.paris_bajo) "presupuesto" ->
      optional_string (JS.get (body req') "tipoViaje") = true ->
      exists resp',
        fst (consejos req' w' s') = Ok resp' /\
        JS.get (json resp') "consejoPresupuesto" =
        JS.get (json resp) "consejoPresupuesto".
Proof.
  split; [reflexivity|].
  apply (consejos_presupuesto Sample.paris_bajo Sample.offline start "Paris");
    [reflexivity | discriminate | reflexivity | reflexivity].
Defined.

(** ** [/vuelos] and [/hospedaje] *)

Section OfferFacts.

Lemma random_below_1000 r : 0 <= Double.floor (Double.times r 1000) < 1000.
Proof. apply (floor_times_range r 1000 10); [lia | split; reflexivity || discriminate]. Qed.

Lemma random_below_300 r : 0 <= Double.floor (Double.times r 300) < 300.
Proof. apply (floor_times_range r 300 9); [lia | split; reflexivity || discriminate]. Qed.

Lemma random_below_200 r : 0 <= Double.floor (Double.times r 200) < 200.
Proof. apply (floor_times_range r 200 8); [lia | split; reflexivity || discriminate]. Qed.

Lemma random_below_150 r : 0 <= Double.floor (Double.times r 150) < 150.
Proof. apply (floor_times_range r 150 8); [lia | split; reflexivity || discriminate]. Qed.

Lemma random_below_100 r : 0 <= Double.floor (Double.times r 100) < 100.
Proof. apply (floor_times_range r 100 7); [lia | split; reflexivity || discriminate]. Qed.

Lemma truthy_not_nullish v key :
  JS.truthy (JS.get v key) = true -> JS.nullish v = false.
Proof. destruct v; simpl; congruence. Qed.

(** What [/vuelos] answers when its three fields are there: the six
    draws of the random source, in the order the object literals make
    them. *)
Lemma vuelos_run (req : request) (w : world) (s : state) :
  JS.truthy (JS.get (body req) "origen") = true ->
  JS.truthy (JS.get (body req) "destino") = true ->
  JS.truthy (JS.get (body req) "fecha") = true ->
  let draw i n := Double.floor (Double.times (random w (i + drawn s)%nat) n) in
  let origen := JS.get (body req) "origen" in
  let destino := JS.get (body req) "destino" in
  let fecha := JS.get (body req) "fecha" in
  vuelos req w s =
  (Ok (res_json (VObj [("vuelos", VArr [
     flight_offer "Avianca" (concat_number "AV" (draw 0%nat 1000))
       origen destino fecha "08:30" "10:45" "2h 15m"
       (draw 1%nat 300 + 200) 0;
     flight_offer "LATAM" (concat_number "LA" (draw 2%nat 1000))
       origen destino fecha "12:15" "14:50" "2h 35m"
       (draw 3%nat 300 + 180) 1;
     flight_offer "Copa Airlines" (concat_number "CM" (draw 4%nat 1000))
       origen destino fecha "16:40" "19:10" "2h 30m"
       (draw 5%nat 300 + 220) 0])])),
   {| drawn := (6 + drawn s)%nat; called := called s; logged := logged s |}).
Proof.
  intros Ho Hd Hf draw origen destino fecha.
  unfold vuelos. apply try_ok.
  unfold vuelos_try, destructure.
  rewrite (truthy_not_nullish _ _ Ho), Ho, Hd, Hf.
  reflexivity.
Qed.

End OfferFacts.

Section LodgingFacts.

Lemma truthy_string (c : string) : c <> "" -> JS.truthy (VStr c) = true.
Proof.
  intros H. simpl. destruct (String.eqb_spec c ""); [contradiction | reflexivity].
Qed.

(** What [/hospedaje] answers for a city name: three draws. *)
Lemma hospedaje_run (req : request) (w : world) (s : state) (c : string) :
  JS.assoc (query req) "ciudad" = VStr c -> c <> "" ->
  let draw i n := Double.floor (Double.times (random w (i + drawn s)%nat) n) in
  hospedaje req w s =
  (Ok (res_json (VObj [("hospedajes", VArr [
     lodging_offer "Apartamento Céntrico" "Apartamento entero"
       ("Centro de " ++ c) (draw 0%nat 100 + 50) 2 1 4 4.8 123
       "https://via.placeholder.com/300x200?text=Apartamento";
     lodging_offer "Hotel Boutique" "Habitación de hotel"
       ("Zona turística de " ++ c) (draw 1%nat 150 + 80) 1 1 2 4.6 87
       "https://via.placeholder.com/300x200?text=Hotel";
     lodging_offer "Casa Familiar" "Casa entera"
       ("Zona residencial de " ++ c) (draw 2%nat 200 + 120) 3 2 6 4.9 45
       "https://via.placeholder.com/300x200?text=Casa"])])),
   {| drawn := (3 + drawn s)%nat; called := called s; logged := logged s |}).
Proof.
  intros Hc Hne draw.
  unfold hospedaje. apply try_ok.
  unfold hospedaje_try. rewrite Hc, (truthy_string c Hne). cbn [negb].
  rewrite (bind_ok _ _ _ _ _ _ (template_string _ c "" w s)).
  rewrite (bind_ok _ _ _ _ _ _ (random_below_run 100 w s)).
  rewrite (bind_ok _ _ _ _ _ _ (template_string _ c "" w _)).
  rewrite (bind_ok _ _ _ _ _ _ (random_below_run 150 w _)).
  rewrite (bind_ok _ _ _ _ _ _ (template_string _ c "" w _)).
  rewrite (bind_ok _ _ _ _ _ _ (random_below_run 200 w _)).
  rewrite !append_empty. reflexivity.
Qed.

End LodgingFacts.

(** C2: for every POST /vuelos request whose [origen], [destino] and [fecha]
    are there and non-empty, and for every random source, the answer is 200
    with exactly three offers, Avianca, LATAM and Copa Airlines in that
    order; each echoes [origen], [destino] and [fecha] as given; the flight
    numbers are "AV", "LA" and "CM" followed by the digits of an integer of
    0..999, so each has the shape [^(AV|LA|CM)\d{1,3}$]; the prices are
    integers of [200,500), [180,480) and [220,520); times, durations,
    currency and stops are the constants of each airline. *)
Theorem vuelos_offers (req : request) (w : world) (s : state) :
  JS.truthy (JS.get (body req) "origen") = true ->
  JS.truthy (JS.get (body req) "destino") = true ->
  JS.truthy (JS.get (body req) "fecha") = true ->
  exists n1 p1 n2 p2 n3 p3 : Z,
    fst (vuelos req w s) =
    Ok {| status := 200;
          json := VObj [("vuelos", VArr [
            flight_offer "Avianca" ("AV" ++ Str.of_nonneg n1)
              (JS.get (body req) "origen") (JS.get (body req) "destino")
              (JS.get (body req) "fecha") "08:30" "10:45" "2h 15m" p1 0;
            flight_offer "LATAM" ("LA" ++ Str.of_nonneg n2)
              (JS.get (body req) "origen") (JS.get (body req) "destino")
              (JS.get (body req) "fecha") "12:15" "14:50" "2h 35m" p2 1;
            flight_offer "Copa Airlines" ("CM" ++ Str.of_nonneg n3)
              (JS.get (body req) "origen") (JS.get (body req) "destino")
              (JS.get (body req) "fecha") "16:40" "19:10" "2h 30m" p3 0])] |}
    /\ (0 <= n1 <= 999 /\ 0 <= n2 <= 999 /\ 0 <= n3 <= 999)
    /\ (200 <= p1 < 500 /\ 180 <= p2 < 480 /\ 220 <= p3 < 520)
    /\ flight_number ("AV" ++ Str.of_nonneg n1) = true
    /\ flight_number ("LA" ++ Str.of_nonneg n2) = true
    /\ flight_number ("CM" ++ Str.of_nonneg n3) = true.
Proof.
  intros Ho Hd Hf.
  pose proof (vuelos_run req w s Ho Hd Hf) as Hrun. cbv zeta in Hrun.
  set (draw i n := Double.floor (Double.times (random w (i + drawn s)%nat) n))
    in *.
  assert (B1000 : forall i, 0 <= draw i 1000 < 1000)
    by (intros; apply random_below_1000).
  assert (B300 : forall i, 0 <= draw i 300 < 300)
    by (intros; apply random_below_300).
  assert (Hcat : forall code i,
             concat_number code (draw i 1000) =
             (code ++ Str.of_nonneg (draw i 1000))%string).
  { intros code i. unfold concat_number.
    rewrite number_to_string_integer; [reflexivity | apply B1000]. }
  exists (draw 0%nat 1000), (draw 1%nat 300 + 200),
         (draw 2%nat 1000), (draw 3%nat 300 + 180),
         (draw 4%nat 1000), (draw 5%nat 300 + 220).
  rewrite Hrun, !Hcat. cbn [fst].
  pose proof (B1000 0%nat). pose proof (B1000 2%nat). pose proof (B1000 4%nat).
  pose proof (B300 1%nat). pose proof (B300 3%nat). pose proof (B300 5%nat).
  split; [reflexivity|].
  split; [lia|]. split; [lia|].
  rewrite <- !Hcat.
  repeat split; apply flight_number_ok; simpl; auto; lia.
Qed.

Lemma vuelos_offers_witness :
  JS.get (body Sample.bogota_lima) "origen" = VStr "Bogota" /\
  exists n1 p1 n2 p2 n3 p3 : Z,
    fst (vuelos Sample.bogota_lima Sample.configured start) =
    Ok {| status := 200;
          json := VObj [("vuelos", VArr [
            flight_offer "Avianca" ("AV" ++ Str.of_nonneg n1)
              (VStr "Bogota") (VStr "Lima") (VStr "2024-05-01")
              "08:30" "10:45" "2h 15m" p1 0;
            flight_offer "LATAM" ("LA" ++ Str.of_nonneg n2)
              (VStr "Bogota") (VStr "Lima") (VStr "2024-05-01")
              "12:15" "14:50" "2h 35m" p2 1;
            flight_offer "Copa Airlines" ("CM" ++ Str.of_nonneg n3)
              (VStr "Bogota") (VStr "Lima") (VStr "2024-05-01")
              "16:40" "19:10" "2h 30m" p3 0])] |}
    /\ (0 <= n1 <= 999 /\ 0 <= n2 <= 999 /\ 0 <= n3 <= 999)
    /\ (200 <= p1 < 500 /\ 180 <= p2 < 480 /\ 220 <= p3 < 520)
    /\ flight_number ("AV" ++ Str.of_nonneg n1) = true
    /\ flight_number ("LA" ++ Str.of_nonneg n2) = true
    /\ flight_number ("CM" ++ Str.of_nonneg n3) = true.
Proof.
  split; [reflexivity|].
  apply (vuelos_offers Sample.bogota_lima Sample.configured start);
    reflexivity.
Defined.

(** C3: for every GET /hospedaje request whose [ciudad] is a non-empty
    string, and for every random source, the answer is 200 with exactly
    three offers, apartment, hotel and house in that order; each
    [ubicacion] has [ciudad] as a substring; type, rooms, bathrooms,
    capacity, rating and number of reviews are the constants of each
    archetype; the prices are integers of [50,150), [80,230) and
    [120,320). *)
Theorem hospedaje_offers (req : request) (w : world) (s : state) (c : string) :
  JS.assoc (query req) "ciudad" = VStr c -> c <> "" ->
  exists p1 p2 p3 : Z,
    fst (hospedaje req w s) =
    Ok {| status := 200;
          json := VObj [("hospedajes", VArr [
            lodging_offer "Apartamento Céntrico" "Apartamento entero"
              ("Centro de " ++ c) p1 2 1 4 4.8 123
              "https://via.placeholder.com/300x200?text=Apartamento";
            lodging_offer "Hotel Boutique" "Habitación de hotel"
              ("Zona turística de " ++ c) p2 1 1 2 4.6 87
              "https://via.placeholder.com/300x200?text=Hotel";
            lodging_offer "Casa Familiar" "Casa entera"
              ("Zona residencial de " ++ c) p3 3 2 6 4.9 45
              "https://via.placeholder.com/300x200?text=Casa"])] |}
    /\ (substring_of c ("Centro de " ++ c) /\
        substring_of c ("Zona turística de " ++ c) /\
        substring_of c ("Zona residencial de " ++ c))
    /\ (50 <= p1 < 150 /\ 80 <= p2 < 230 /\ 120 <= p3 < 320).
Proof.
  intros Hc Hne.
  pose proof (hospedaje_run req w s c Hc Hne) as Hrun. cbv zeta in Hrun.
  pose proof (random_below_100 (random w (0 + drawn s)%nat)).
  pose proof (random_below_150 (random w (1 + drawn s)%nat)).
  pose proof (random_below_200 (random w (2 + drawn s)%nat)).
  do 3 eexists. rewrite Hrun. cbn [fst].
  split; [reflexivity|].
  split; [|lia].
  repeat split; apply includes_spec, includes_append.
Qed.

Lemma hospedaje_offers_witness :
  JS.assoc (query Sample.ciudad_lima) "ciudad" = VStr "Lima" /\
  exists p1 p2 p3 : Z,
    fst (hospedaje Sample.ciudad_lima Sample.configured start) =
    Ok {| status := 200;
          json := VObj [("hospedajes", VArr [
            lodging_offer "Apartamento Céntrico" "Apartamento entero"
              ("Centro de " ++ "Lima") p1 2 1 4 4.8 123
              "https://via.placeholder.com/300x200?text=Apartamento";
            lodging_offer "Hotel Boutique" "Habitación de hotel"
              ("Zona turística de " ++ "Lima") p2 1 1 2 4.6 87
              "https://via.placeholder.com/300x200?text=Hotel";
            lodging_offer "Casa Familiar" "Casa entera"
              ("Zona residencial de " ++ "Lima") p3 3 2 6 4.9 45
              "https://via.placeholder.com/300x200?text=Casa"])] |}
    /\ (substring_of "Lima" ("Centro de " ++ "Lima") /\
        substring_of "Lima" ("Zona turística de " ++ "Lima") /\
        substring_of "Lima" ("Zona residencial de " ++ "Lima"))
    /\ (50 <= p1 < 150 /\ 80 <= p2 < 230 /\ 120 <= p3 < 320).
Proof.
  split; [reflexivity|].
  apply (hospedaje_offers Sample.ciudad_lima Sample.configured start "Lima");
    [reflexivity | discriminate].
Defined.

(** ** Missing parameters *)

Section PresenceFacts.

(** A falsy required parameter ends every handler at its first [return]. *)
Lemma falsy_parameter (ep : endpoint) (req : request) (w : world) (s : state)
      (p : string) :
  parsed ep req = true -> In p (required ep) ->
  JS.truthy (parameter ep req p) = false ->
  app ep req w s = (Ok (missing (complaint ep)), s).
Proof.
  intros Hparsed Hin Hfalsy.
  destruct ep; simpl in Hin, Hfalsy, Hparsed |- *;
    repeat (destruct Hin as [<-|Hin]); try contradiction;
    apply try_ok.
  - unfold wiki_try. now rewrite Hfalsy.
  - unfold clima_try. now rewrite Hfalsy.
  - unfold vuelos_try, destructure.
    apply negb_true_iff in Hparsed. rewrite Hparsed, Hfalsy. reflexivity.
  - unfold vuelos_try, destructure.
    apply negb_true_iff in Hparsed. rewrite Hparsed, Hfalsy.
    destruct (JS.truthy (JS.get (body req) "origen")); reflexivity.
  - unfold vuelos_try, destructure.
    apply negb_true_iff in Hparsed. rewrite Hparsed, Hfalsy.
    destruct (JS.truthy (JS.get (body req) "origen")),
             (JS.truthy (JS.get (body req) "destino")); reflexivity.
  - unfold hospedaje_try. now rewrite Hfalsy.
  - unfold consejos_try, destructure.
    apply negb_true_iff in Hparsed. rewrite Hparsed, Hfalsy. reflexivity.
Qed.

End PresenceFacts.




(** C10: on every route with a required parameter, giving that parameter as
    the empty string is answered like leaving it out, with the same 400:
    GET /wiki, /clima and /hospedaje with [ciudad=], POST /vuelos with
    [origen], [destino] or [fecha] equal to the empty string, POST /consejos
    with an empty [destino]. *)
Theorem empty_parameter_400
    (ep : endpoint) (req : request) (w : world) (s : state) (p : string) :
  parsed ep req = true -> In p (required ep) ->
  parameter ep req p = VStr "" ->
  (exists resp,
     app ep req w s = (Ok resp, s) /\
     status resp = 400 /\
     json resp = VObj [("error", VStr (complaint ep))]) /\
  (forall req',
     parsed ep req' = true -> parameter ep req' p = VUndefined ->
     app ep req' w s = app ep req w s).
Proof.
  intros Hparsed Hin Hp.
  assert (Hrun : app ep req w s = (Ok (missing (complaint ep)), s)).
  { apply (falsy_parameter ep req w s p); try assumption. now rewrite Hp. }
  split.
  - exists (missing (complaint ep)). repeat split. exact Hrun.
  - intros req' Hparsed' Hp'. rewrite Hrun.
    apply (falsy_parameter ep req' w s p); try assumption. now rewrite Hp'.
Qed.

Lemma empty_parameter_400_witness :
  parameter Hospedaje Sample.ciudad_vacia "ciudad" = VStr "" /\
  (exists resp,
     app Hospedaje Sample.ciudad_vacia Sample.configured start
       = (Ok resp, start) /\
     status resp = 400 /\
     json resp = VObj [("error", VStr (complaint Hospedaje))]) /\
  (forall req',
     parsed Hospedaje req' = true ->
     parameter Hospedaje req' "ciudad" = VUndefined ->
     app Hospedaje req' Sample.configured start =
     app Hospedaje Sample.ciudad_vacia Sample.configured start).
Proof.
  split; [reflexivity|].
  apply (empty_parameter_400 Hospedaje Sample.ciudad_vacia Sample.configured
           start "ciudad"); [reflexivity | simpl; auto | reflexivity].
Defined.

(** C7: the answer of GET /hospedaje does not depend on [fechaEntrada] and
    [fechaSalida]: two requests with the same [ciudad] and the same random
    source are answered alike, whatever else their query strings hold. *)
Theorem hospedaje_ignores_fechas (req1 req2 : request) (w : world) (s : state) :
  JS.assoc (query req1) "ciudad" = JS.assoc (query req2) "ciudad" ->
  hospedaje req1 w s = hospedaje req2 w s.
Proof.
  intros H. unfold hospedaje, hospedaje_try. now rewrite H.
Qed.

Lemma hospedaje_ignores_fechas_witness :
  JS.assoc (query Sample.ciudad_lima_fechas) "fechaEntrada" = VStr "2024-05-01"
  /\ JS.assoc (query Sample.ciudad_lima) "fechaEntrada" = VUndefined
  /\ hospedaje Sample.ciudad_lima Sample.configured start =
     hospedaje Sample.ciudad_lima_fechas Sample.configured start.
Proof.
  split; [reflexivity|]. split; [reflexivity|].
  apply (hospedaje_ignores_fechas Sample.ciudad_lima Sample.ciudad_lima_fechas
           Sample.configured start).
  reflexivity.
Defined.

(** ** Failures *)

Section FailureFacts.

Lemma app_try_catch (ep : endpoint) (req : request) :
  exists label,
    app ep req = try_catch (attempt ep req) (catch_500 label (apology ep)).
Proof. destruct ep; eexists; reflexivity. Qed.

(** An exception in the [try] block is answered by the [catch] block. *)
Lemma thrown_500 (ep : endpoint) (req : request) (w : world) (s : state)
      (e : error) (s' : state) :
  attempt ep req w s = (Throw e, s') ->
  exists s'',
    app ep req w s =
    (Ok (res_status_json 500
           (VObj [("error", VStr (apology ep));
                  ("mensaje", VStr (message e))])), s'').
Proof.
  intros H. destruct (app_try_catch ep req) as [label ->].
  rewrite (try_throw _ _ _ _ _ _ H), catch_500_run. eexists. reflexivity.
Qed.

Lemma encodeURIComponent_run v c w s :
  JS.ToString v = Ok c ->
  encodeURIComponent v w s = (Ok (Str.percent_encode c), s).
Proof. intros H. unfold encodeURIComponent, bind, lift. now rewrite H. Qed.

Lemma axios_get_rejected url e w s :
  upstream w url = Rejected e ->
  axios_get url w s =
  (Throw e, {| drawn := drawn s; called := called s ++ [url];
               logged := logged s |}).
Proof. intros H. unfold axios_get. now rewrite H. Qed.

Lemma axios_get_resolved url data w s :
  upstream w url = Resolved data ->
  axios_get url w s =
  (Ok data, {| drawn := drawn s; called := called s ++ [url];
               logged := logged s |}).
Proof. intros H. unfold axios_get. now rewrite H. Qed.

Lemma wiki_try_rejected req w s c e :
  JS.truthy (JS.assoc (query req) "ciudad") = true ->
  JS.ToString (JS.assoc (query req) "ciudad") = Ok c ->
  upstream w (wiki_url c) = Rejected e ->
  exists s', wiki_try req w s = (Throw e, s').
Proof.
  intros Ht Hs Hu. unfold wiki_try. rewrite Ht. cbn [negb].
  rewrite (bind_ok _ _ _ _ _ _ (encodeURIComponent_run _ _ w s Hs)).
  eexists. apply bind_throw. apply axios_get_rejected. exact Hu.
Qed.

Lemma credential_run w s :
  process_env_OPENWEATHER_API_KEY w s = (Ok (credential w), s).
Proof. reflexivity. Qed.

Lemma clima_try_rejected req w s c k e :
  JS.truthy (JS.assoc (query req) "ciudad") = true ->
  JS.ToString (JS.assoc (query req) "ciudad") = Ok c ->
  OPENWEATHER_API_KEY w = Some k -> k <> "" ->
  upstream w (clima_url c k) = Rejected e ->
  exists s', clima_try req w s = (Throw e, s').
Proof.
  intros Ht Hs Hk Hne Hu. unfold clima_try. rewrite Ht. cbn [negb].
  rewrite (bind_ok _ _ _ _ _ _ (credential_run w s)).
  unfold credential. rewrite Hk, (truthy_string k Hne). cbn [negb].
  rewrite (bind_ok _ _ _ _ _ _ (encodeURIComponent_run _ _ w s Hs)).
  rewrite (bind_ok _ _ _ _ _ _ (template_string _ k "" w s)).
  eexists. apply bind_throw. apply axios_get_rejected.
  rewrite append_empty. unfold clima_url in Hu.
  rewrite <- Hu. f_equal. simpl. now rewrite append_assoc.
Qed.

Lemma clima_no_credential req w s :
  JS.truthy (JS.assoc (query req) "ciudad") = true ->
  JS.truthy (credential w) = false ->
  clima req w s =
  (Ok (res_status_json 500
         (VObj [("error", VStr "API key de OpenWeather no configurada")])), s).
Proof.
  intros Ht Hk. unfold clima. apply try_ok.
  unfold clima_try. rewrite Ht. cbn [negb].
  rewrite (bind_ok _ _ _ _ _ _ (credential_run w s)).
  now rewrite Hk.
Qed.

End FailureFacts.

(** C8: as the code has it, a rejected outbound call of /wiki or /clima and
    every exception thrown while a request is handled are answered with 500
    and a body of two fields, [error] with the fixed text of the route and
    [mensaje] with the message of the error; the missing weather credential
    of /clima is answered with 500 and a body whose only field is [error],
    with the text "API key de OpenWeather no configurada". *)
Theorem failure_500
    (ep : endpoint) (req : request) (w : world) (s : state) (answer : value) :
  failure ep req w s answer ->
  exists s', app ep req w s = (Ok {| status := 500; json := answer |}, s').
Proof.
  intros [c e -> Ht Hs Hu | c k e -> Ht Hs Hk Hne Hu | e s' H | -> Ht Hk].
  - destruct (wiki_try_rejected req w s c e Ht Hs Hu) as [s' H].
    apply (thrown_500 Wiki req w s e s' H).
  - destruct (clima_try_rejected req w s c k e Ht Hs Hk Hne Hu) as [s' H].
    apply (thrown_500 Clima req w s e s' H).
  - apply (thrown_500 ep req w s e s' H).
  - exists s. apply clima_no_credential; assumption.
Qed.

Lemma failure_500_witness :
  failure Wiki Sample.ciudad_cusco Sample.offline start
    (VObj [("error", VStr "Error al consultar Wikipedia");
           ("mensaje", VStr "Request failed with status code 404")]) /\
  exists s',
    app Wiki Sample.ciudad_cusco Sample.offline start =
    (Ok {| status := 500;
           json := VObj [("error", VStr "Error al consultar Wikipedia");
                         ("mensaje",
                          VStr "Request failed with status code 404")] |}, s').
Proof.
  assert (F : failure Wiki Sample.ciudad_cusco Sample.offline start
                (VObj [("error", VStr "Error al consultar Wikipedia");
                       ("mensaje",
                        VStr "Request failed with status code 404")])).
  { apply (wiki_rejected Wiki Sample.ciudad_cusco Sample.offline start "Cusco"
             (AxiosError "Request failed with status code 404"));
      reflexivity. }
  split; [exact F|].
  apply (failure_500 Wiki Sample.ciudad_cusco Sample.offline start _ F).
Defined.

(** C8 as stated fails: with no weather credential, GET /clima?ciudad=Lima
    is answered with 500 and a body that has an [error] field and no
    [mensaje] field, while the 500 of a rejected outbound call has both. *)
Lemma clima_no_credential_no_mensaje :
  clima Sample.ciudad_lima Sample.offline start =
    (Ok {| status := 500;
           json := VObj [("error",
                          VStr "API key de OpenWeather no configurada")] |},
     start) /\
  JS.get (VObj [("error", VStr "API key de OpenWeather no configurada")])
         "mensaje" = VUndefined /\
  fst (wiki Sample.ciudad_cusco Sample.offline start) =
    Ok {| status := 500;
          json := VObj [("error", VStr "Error al consultar Wikipedia");
                        ("mensaje",
                         VStr "Request failed with status code 404")] |}.
Proof. repeat split; vm_compute; reflexivity. Qed.

(** ** [/wiki] *)

Section WikiFacts.

Lemma member_run v key w s :
  JS.nullish v = false -> member v key w s = (Ok (JS.get v key), s).
Proof. intros H. unfold member. now rewrite H. Qed.

Lemma optional_present v key :
  JS.nullish v = false -> optional v key = JS.get v key.
Proof. intros H. unfold optional. now rewrite H. Qed.

(** What [/wiki] answers when the upstream resolves. *)
Lemma wiki_run (req : request) (w : world) (s : state) (c : string)
      (data : value) :
  JS.assoc (query req) "ciudad" = VStr c -> c <> "" ->
  upstream w (wiki_url c) = Resolved data ->
  JS.nullish data = false ->
  wiki req w s =
  (Ok (res_json
         (VObj [("titulo", JS.get data "title");
                ("extracto", JS.get data "extract");
                ("url", or_else (path data ["content_urls"; "desktop"; "page"])
                                (VStr ""));
                ("imagen", or_else (path data ["thumbnail"; "source"])
                                   VNull)])),
   {| drawn := drawn s; called := called s ++ [wiki_url c];
      logged := logged s |}).
Proof.
  intros Hc Hne Hu Hd. unfold wiki. apply try_ok.
  unfold wiki_try. rewrite Hc, (truthy_string c Hne). cbn [negb].
  rewrite (bind_ok _ _ _ _ _ _
             (encodeURIComponent_run (VStr c) c w s eq_refl)).
  rewrite (bind_ok _ _ _ _ _ _ (axios_get_resolved _ _ w s Hu)).
  rewrite !(bind_ok _ _ _ _ _ _ (member_run data _ w _ Hd)).
  unfold path. cbn [fold_left].
  rewrite !(optional_present data) by exact Hd.
  reflexivity.
Qed.

End WikiFacts.

(** C9: for every GET /wiki request with a non-empty [ciudad] whose upstream
    lookup resolves, the answer is 200 with [titulo] the upstream [title],
    [extracto] the upstream [extract], [url] the upstream
    [content_urls.desktop.page], or the empty string when that is absent,
    and [imagen] the upstream [thumbnail.source], or [null] when the
    thumbnail (or its source) is absent. *)
Theorem wiki_summary (req : request) (w : world) (s : state) (c : string)
    (data : value) :
  JS.assoc (query req) "ciudad" = VStr c -> c <> "" ->
  upstream w (wiki_url c) = Resolved data ->
  JS.nullish data = false ->
  let page := path data ["content_urls"; "desktop"; "page"] in
  let source := path data ["thumbnail"; "source"] in
  exists url imagen,
    fst (wiki req w s) =
    Ok {| status := 200;
          json := VObj [("titulo", JS.get data "title");
                        ("extracto", JS.get data "extract");
                        ("url", url);
                        ("imagen", imagen)] |} /\
    (forall u, page = VStr u -> url = VStr u) /\
    (JS.nullish page = true -> url = VStr "") /\
    (forall u, u <> "" -> source = VStr u -> imagen = VStr u) /\
    (JS.nullish (JS.get data "thumbnail") = true -> imagen = VNull) /\
    (JS.nullish source = true -> imagen = VNull).
Proof.
  intros Hc Hne Hu Hd page source.
  rewrite (wiki_run req w s c data Hc Hne Hu Hd). cbn [fst].
  exists (or_else page (VStr "")), (or_else source VNull).
  split; [reflexivity|].
  unfold or_else. repeat split.
  - intros u ->. simpl. now destruct (String.eqb_spec u "") as [->|].
  - intros H. destruct page; try discriminate; reflexivity.
  - intros u Hu' ->. now rewrite (truthy_string u Hu').
  - intros H. subst source. unfold path. cbn [fold_left].
    rewrite (optional_present data) by exact Hd.
    unfold optional. now rewrite H.
  - intros H. destruct source; try discriminate; reflexivity.
Qed.

Lemma wiki_summary_witness :
  upstream Sample.offline (wiki_url "Lima") = Resolved Sample.lima_summary /\
  exists url imagen,
    fst (wiki Sample.ciudad_lima Sample.offline start) =
    Ok {| status := 200;
          json := VObj [("titulo", JS.get Sample.lima_summary "title");
                        ("extracto", JS.get Sample.lima_summary "extract");
                        ("url", url);
                        ("imagen", imagen)] |} /\
    (forall u,
        path Sample.lima_summary ["content_urls"; "desktop"; "page"] = VStr u ->
        url = VStr u) /\
    (JS.nullish (path Sample.lima_summary ["content_urls"; "desktop"; "page"])
     = true -> url = VStr "") /\
    (forall u, u <> "" ->
        path Sample.lima_summary ["thumbnail"; "source"] = VStr u ->
        imagen = VStr u) /\
    (JS.nullish (JS.get Sample.lima_summary "thumbnail") = true ->
     imagen = VNull) /\
    (JS.nullish (path Sample.lima_summary ["thumbnail"; "source"]) = true ->
     imagen = VNull).
Proof.
  split; [reflexivity|].
  apply (wiki_summary Sample.ciudad_lima Sample.offline start "Lima"
           Sample.lima_summary);
    [reflexivity | discriminate | reflexivity | reflexivity].
Defined.

(** ** Determinism *)

Section DeterminismFacts.

(** The answer of [/consejos] is a function of the request alone; the
    handler draws nothing and calls nothing. *)
Lemma consejos_function (req : request) :
  exists resp, forall w s,
    fst (consejos req w s) = Ok resp /\
    drawn (snd (consejos req w s)) = drawn s /\
    called (snd (consejos req w s)) = called s.
Proof.
  destruct (pure_consejos_try req) as [[resp|e] H].
  - exists resp. intros w s. unfold consejos.
    rewrite (try_ok _ _ _ _ _ _ (H w s)). auto.
  - eexists. intros w s. unfold consejos.
    rewrite (try_throw _ _ _ _ _ _ (H w s)), catch_500_run.
    cbn [fst snd drawn called]. auto.
Qed.

End DeterminismFacts.

(** C6: POST /consejos is a function of its request: two calls with the same
    request give the same answer, whatever the random source, the upstream
    services, the environment and the state are, and the handler draws no
    random number and makes no outbound call; POST /vuelos and
    GET /hospedaje are not: for a fixed valid request there are two random
    sources under which the two answers, both 200, differ. *)
Theorem consejos_deterministic_offers_not :
  (forall req w1 s1 w2 s2,
      fst (consejos req w1 s1) = fst (consejos req w2 s2) /\
      drawn (snd (consejos req w1 s1)) = drawn s1 /\
      called (snd (consejos req w1 s1)) = called s1) /\
  (exists req w r1 r2 resp1 resp2,
      fst (vuelos req (with_random w r1) start) = Ok resp1 /\
      fst (vuelos req (with_random w r2) start) = Ok resp2 /\
      status resp1 = 200 /\ status resp2 = 200 /\
      JS.get (json resp1) "vuelos" <> JS.get (json resp2) "vuelos") /\
  (exists req w r1 r2 resp1 resp2,
      fst (hospedaje req (with_random w r1) start) = Ok resp1 /\
      fst (hospedaje req (with_random w r2) start) = Ok resp2 /\
      status resp1 = 200 /\ status resp2 = 200 /\
      JS.get (json resp1) "hospedajes" <> JS.get (json resp2) "hospedajes").
Proof.
  split; [|split].
  - intros req w1 s1 w2 s2.
    destruct (consejos_function req) as [resp H].
    destruct (H w1 s1) as (E1 & D1 & C1). destruct (H w2 s2) as (E2 & _ & _).
    rewrite E1, E2. auto.
  - exists Sample.bogota_lima, Sample.offline,
      (fun _ => Sample.zero), (fun _ => Sample.one_half).
    do 2 eexists.
    split; [vm_compute; reflexivity|]. split; [vm_compute; reflexivity|].
    split; [reflexivity|]. split; [reflexivity|].
    vm_compute. discriminate.
  - exists Sample.ciudad_lima, Sample.offline,
      (fun _ => Sample.zero), (fun _ => Sample.one_half).
    do 2 eexists.
    split; [vm_compute; reflexivity|]. split; [vm_compute; reflexivity|].
    split; [reflexivity|]. split; [reflexivity|].
    vm_compute. discriminate.
Qed.

(** ** Examples *)

Section Examples.

(** The rounding of [Double.times] is the one of IEEE 754 multiplication. *)
Example times_ieee_almost_one_1000 :
  Double.ieee_times Sample.almost_one 1000
  = Some (Double.times Sample.almost_one 1000).
Proof. vm_compute. reflexivity. Qed.

Example times_ieee_almost_one_300 :
  Double.ieee_times Sample.almost_one 300
  = Some (Double.times Sample.almost_one 300).
Proof. vm_compute. reflexivity. Qed.

Example times_ieee_almost_one_150 :
  Double.ieee_times Sample.almost_one 150
  = Some (Double.times Sample.almost_one 150).
Proof. vm_compute. reflexivity. Qed.

Example times_ieee_one_half_200 :
  Double.ieee_times Sample.one_half 200
  = Some (Double.times Sample.one_half 200).
Proof. vm_compute. reflexivity. Qed.

Example times_ieee_tiny_100 :
  Double.ieee_times Sample.tiny 100 = Some (Double.times Sample.tiny 100).
Proof. vm_compute. reflexivity. Qed.

(** The product of the largest double below 1 with 1000 is rounded, and
    stays below 1000. *)
Example almost_one_1000 :
  fst (Double.times Sample.almost_one 1000) <> (2 ^ 53 - 1) * 1000 /\
  Double.floor (Double.times Sample.almost_one 1000) = 999.
Proof. split; [vm_compute; discriminate | vm_compute; reflexivity]. Qed.

(** [/vuelos] at the top of the random source. *)
Example vuelos_top :
  fst (vuelos Sample.bogota_lima Sample.forecast start) =
  Ok (res_json (VObj [("vuelos", VArr [
    flight_offer "Avianca" "AV999" (VStr "Bogota") (VStr "Lima")
      (VStr "2024-05-01") "08:30" "10:45" "2h 15m" 499 0;
    flight_offer "LATAM" "LA999" (VStr "Bogota") (VStr "Lima")
      (VStr "2024-05-01") "12:15" "14:50" "2h 35m" 479 1;
    flight_offer "Copa Airlines" "CM999" (VStr "Bogota") (VStr "Lima")
      (VStr "2024-05-01") "16:40" "19:10" "2h 30m" 519 0])])).
Proof. vm_compute. reflexivity. Qed.

(** [/hospedaje?ciudad=Lima] at the bottom of the random source. *)
Example hospedaje_bottom :
  fst (hospedaje Sample.ciudad_lima Sample.offline start) =
  Ok (res_json (VObj [("hospedajes", VArr [
    lodging_offer "Apartamento Céntrico" "Apartamento entero"
      "Centro de Lima" 50 2 1 4 4.8 123
      "https://via.placeholder.com/300x200?text=Apartamento";
    lodging_offer "Hotel Boutique" "Habitación de hotel"
      "Zona turística de Lima" 80 1 1 2 4.6 87
      "https://via.placeholder.com/300x200?text=Hotel";
    lodging_offer "Casa Familiar" "Casa entera"
      "Zona residencial de Lima" 120 3 2 6 4.9 45
      "https://via.placeholder.com/300x200?text=Casa"])])).
Proof. vm_compute. reflexivity. Qed.

(** [/consejos] with [{destino: "Paris", tipoViaje: "aventura"}]. *)
Example consejos_paris_aventura :
  consejos Sample.paris_aventura Sample.offline start =
  (Ok (res_json (VObj [
     ("destino", VStr "Paris");
     ("tipoViaje", VStr "aventura");
     ("presupuesto", VStr "medio");
     ("recomendaciones", VArr [
        VStr "Rutas de senderismo populares cerca de Paris";
        VStr "Empresas de deportes extremos en Paris";
        VStr "Parques naturales que debes visitar en Paris";
        VStr "Equipamiento necesario para actividades al aire libre en Paris";
        VStr "Hospedajes con acceso rápido a actividades de aventura en Paris"]);
     ("consejoPresupuesto",
      VStr "Con un presupuesto medio en Paris, equilibra experiencias premium con opciones más económicas. Considera un hotel de 3-4 estrellas y mezcla restaurantes de diferentes categorías.")])),
   start).
Proof. vm_compute. reflexivity. Qed.

(** The first word found wins, in any case of letters. *)
Example consejos_negocio_first :
  pick "Turismo CULTURAL y de Negocios" = negocio /\
  pick "aventura cultural" = aventura /\
  pick "Cultural" = cultural /\
  pick "vacaciones" = vacaciones /\
  tier "BAJO" = bajo /\ tier "Alto" = alto /\ tier "bajo " = medio.
Proof. repeat split; vm_compute; reflexivity. Qed.

(** [/clima?ciudad=Lima] with a credential and a weather service. *)
Example clima_lima :
  clima Sample.ciudad_lima Sample.forecast start =
  (Ok (res_json (VObj [
     ("ciudad", VStr "Lima");
     ("pais", VStr "PE");
     ("temperatura", VNum 18.5);
     ("sensacionTermica", VNum 18.2);
     ("humedad", num 82);
     ("condicion", VStr "nubes");
     ("icono", VStr "https://openweathermap.org/img/wn/04d@2x.png")])),
   {| drawn := 0;
      called := ["https://api.openweathermap.org/data/2.5/weather?q=Lima&units=metric&lang=es&appid=k3y"];
      logged := [] |}).
Proof. vm_compute. reflexivity. Qed.

(** An upstream answer without [sys] makes the handler throw; the [catch]
    block answers. *)
Example clima_truncated :
  fst (clima Sample.ciudad_lima Sample.truncated start) =
  Ok (res_status_json 500 (VObj [
    ("error", VStr "Error al consultar el clima");
    ("mensaje",
     VStr "Cannot read properties of undefined (reading 'country')")])).
Proof. vm_compute. reflexivity. Qed.

(** Outside the strings the tool catalogue declares: a [tipoViaje] that is
    a number has no [toLowerCase], and a request without a parsed body
    cannot be destructured; both end in the [catch] block. *)
Example consejos_tipoViaje_number :
  fst (consejos (Sample.post [("destino", VStr "Paris"); ("tipoViaje", num 5)])
         Sample.offline start) =
  Ok (res_status_json 500 (VObj [
    ("error", VStr "Error al generar recomendaciones");
    ("mensaje", VStr "tipoViaje.toLowerCase is not a function")])).
Proof. vm_compute. reflexivity. Qed.

Example vuelos_without_body :
  fst (vuelos {| query := []; body := VUndefined |} Sample.offline start) =
  Ok (res_status_json 500 (VObj [
    ("error", VStr "Error al buscar vuelos");
    ("mensaje",
     VStr "Cannot destructure property 'origen' of 'req.body' as it is undefined.")])).
Proof. vm_compute. reflexivity. Qed.

(** A parameter given several times reaches the handler as an array, and
    is printed with commas. *)
Example hospedaje_array :
  JS.get
    (nth 0 match fst (hospedaje
                        (Sample.get [("ciudad", VArr [VStr "Lima"; VStr "Cusco"])])
                        Sample.offline start) with
           | Ok {| json := VObj [(_, VArr offers)] |} => offers
           | _ => []
           end VUndefined) "ubicacion"
  = VStr "Centro de Lima,Cusco".
Proof. vm_compute. reflexivity. Qed.

End Examples.

(* ================================================================= *)
(** * More of the handlers *)

(** ** What a computation returns, changes and reads *)

Section ReturnsFacts.

Context {A B : Type}.

Lemma returns_ret (G : A -> Prop) (a : A) : G a -> returns G (ret a).
Proof. intros H w s a' s' E. injection E as <- _. exact H. Qed.

Lemma returns_throw (G : A -> Prop) (e : error) : returns G (throw e).
Proof. intros w s a s' E. discriminate. Qed.

Lemma returns_bind (G : B -> Prop) (c : M A) (k : A -> M B) :
  (forall a, returns G (k a)) -> returns G (bind c k).
Proof.
  intros H w s b s' E. unfold bind in E.
  destruct (c w s) as [[a|e] s1]; [|discriminate].
  exact (H a w s1 b s' E).
Qed.

Lemma returns_if (G : A -> Prop) (b : bool) (c1 c2 : M A) :
  returns G c1 -> returns G c2 -> returns G (if b then c1 else c2).
Proof. now destruct b. Qed.

Lemma pure_run (c : M A) (w : world) (s : state) :
  pure c -> snd (c w s) = s /\ forall w' s', fst (c w' s') = fst (c w s).
Proof.
  intros [r H]. split; [now rewrite H|]. intros w' s'. now rewrite !H.
Qed.

End ReturnsFacts.

Section FramesFacts.

Variable F : state -> state -> Prop.
Hypothesis F_refl : forall s, F s s.
Hypothesis F_trans : forall s1 s2 s3, F s1 s2 -> F s2 s3 -> F s1 s3.

Lemma frames_pure {A} (c : M A) : pure c -> frames F c.
Proof. intros [r H] w s. rewrite H. apply F_refl. Qed.

Lemma frames_bind {A B} (c : M A) (k : A -> M B) :
  frames F c -> (forall a, frames F (k a)) -> frames F (bind c k).
Proof.
  intros Hc Hk w s. unfold bind. specialize (Hc w s).
  destruct (c w s) as [[a|e] s1]; cbn [snd] in *; [|assumption].
  exact (F_trans _ _ _ Hc (Hk a w s1)).
Qed.

Lemma frames_if {A} (b : bool) (c1 c2 : M A) :
  frames F c1 -> frames F c2 -> frames F (if b then c1 else c2).
Proof. now destruct b. Qed.

End FramesFacts.

Section RespectsFacts.

Variable R : world -> world -> Prop.

Lemma respects_pure {A} (c : M A) : pure c -> respects R c.
Proof. intros [r H] w1 w2 s _. now rewrite !H. Qed.

Lemma respects_bind {A B} (c : M A) (k : A -> M B) :
  respects R c -> (forall a, respects R (k a)) -> respects R (bind c k).
Proof.
  intros Hc Hk w1 w2 s HR. unfold bind. rewrite (Hc w1 w2 s HR).
  destruct (c w2 s) as [[a|e] s1]; [|reflexivity].
  exact (Hk a w1 w2 s1 HR).
Qed.

Lemma respects_if {A} (b : bool) (c1 c2 : M A) :
  respects R c1 -> respects R c2 -> respects R (if b then c1 else c2).
Proof. now destruct b. Qed.

Lemma respects_try {A} (c : M A) (h : error -> M A) :
  respects R c -> (forall e, respects R (h e)) -> respects R (try_catch c h).
Proof.
  intros Hc Hh w1 w2 s HR. unfold try_catch. rewrite (Hc w1 w2 s HR).
  destruct (c w2 s) as [[a|e] s1]; [reflexivity|].
  exact (Hh e w1 w2 s1 HR).
Qed.

Lemma respects_random :
  (forall w1 w2, R w1 w2 -> agree RandomSource w1 w2) ->
  respects R Math_random.
Proof. intros H w1 w2 s HR. unfold Math_random. now rewrite (H _ _ HR). Qed.

Lemma respects_axios (url : string) :
  (forall w1 w2, R w1 w2 -> agree UpstreamServices w1 w2) ->
  respects R (axios_get url).
Proof. intros H w1 w2 s HR. unfold axios_get. now rewrite (H _ _ HR). Qed.

Lemma respects_catch (label text : string) (e : error) :
  respects R (catch_500 label text e).
Proof. intros w1 w2 s _. reflexivity. Qed.

Lemma respects_env :
  (forall w1 w2, R w1 w2 -> agree Credential w1 w2) ->
  respects R process_env_OPENWEATHER_API_KEY.
Proof.
  intros H w1 w2 s HR.
  unfold process_env_OPENWEATHER_API_KEY, credential. now rewrite (H _ _ HR).
Qed.

End RespectsFacts.

Section PrimitiveFacts.

Lemma pure_member v key : pure (member v key).
Proof. unfold member. auto with purity. Qed.

Lemma pure_member0 v : pure (member0 v).
Proof. unfold member0. auto with purity. Qed.

Lemma pure_encodeURIComponent v : pure (encodeURIComponent v).
Proof. apply pure_bind; auto with purity. Qed.

Lemma pure_console_free_catch : forall label text e,
  frames same_calls (catch_500 label text e) /\
  frames same_draws (catch_500 label text e).
Proof. split; intros w s; reflexivity. Qed.

Lemma frames_random_log : frames same_log Math_random.
Proof. intros w s. reflexivity. Qed.

Lemma frames_random_calls : frames same_calls Math_random.
Proof. intros w s. reflexivity. Qed.

Lemma frames_axios_log url : frames same_log (axios_get url).
Proof. intros w s. unfold axios_get. now destruct (upstream w url). Qed.

Lemma frames_env F : (forall s, F s s) ->
  frames F process_env_OPENWEATHER_API_KEY.
Proof. intros H w s. apply H. Qed.

Lemma app_label (ep : endpoint) (req : request) :
  app ep req = try_catch (attempt ep req) (catch_500 (label ep) (apology ep)).
Proof. now destruct ep. Qed.

End PrimitiveFacts.

#[local] Hint Resolve pure_member pure_member0 pure_encodeURIComponent
  : purity.

(** The rules, applied along the binds of a handler. *)
Ltac purely :=
  repeat first
    [ progress cbv zeta
    | solve [auto with purity]
    | apply pure_if
    | apply pure_bind; [|intro] ].

Ltac returning finish :=
  cbv zeta;
  repeat first
    [ apply returns_throw
    | apply returns_if
    | apply returns_bind; intro
    | apply returns_ret; finish ].

Ltac framing F_refl F_trans base :=
  cbv zeta;
  repeat first
    [ match goal with |- forall _, _ => intro end
    | solve [apply (frames_pure _ F_refl); purely]
    | base
    | apply (frames_if _)
    | apply (frames_bind _ F_trans) ].

Ltac respecting base :=
  cbv zeta;
  repeat first
    [ solve [apply respects_pure; purely]
    | base
    | apply respects_if
    | apply respects_try; [|intro]
    | apply respects_bind; [|intro] ].

(** ** Every handler *)

Section HandlerFacts.

Lemma attempt_returns (ep : endpoint) (req : request) :
  returns plain (attempt ep req).
Proof.
  destruct ep; cbn [attempt];
    [unfold wiki_try | unfold clima_try | unfold vuelos_try
     | unfold hospedaje_try | unfold consejos_try];
    returning ltac:(split; [reflexivity | auto]).
Qed.

Lemma same_log_refl s : same_log s s.
Proof. reflexivity. Qed.

Lemma same_log_trans s1 s2 s3 :
  same_log s1 s2 -> same_log s2 s3 -> same_log s1 s3.
Proof. unfold same_log. congruence. Qed.

Lemma same_calls_refl s : same_calls s s.
Proof. reflexivity. Qed.

Lemma same_calls_trans s1 s2 s3 :
  same_calls s1 s2 -> same_calls s2 s3 -> same_calls s1 s3.
Proof. unfold same_calls. congruence. Qed.

Lemma attempt_same_log (ep : endpoint) (req : request) :
  frames same_log (attempt ep req).
Proof.
  destruct ep; cbn [attempt];
    [unfold wiki_try | unfold clima_try | unfold vuelos_try
     | unfold hospedaje_try | unfold consejos_try];
    unfold random_below;
    framing same_log_refl same_log_trans
      ltac:(first [ apply frames_random_log | apply frames_axios_log
                  | apply (frames_env _ same_log_refl) ]).
Qed.

Lemma attempt_same_calls (ep : endpoint) (req : request) :
  ep <> Wiki -> ep <> Clima -> frames same_calls (attempt ep req).
Proof.
  intros H1 H2. destruct ep; try contradiction; cbn [attempt];
    [unfold vuelos_try | unfold hospedaje_try | unfold consejos_try];
    unfold random_below;
    framing same_calls_refl same_calls_trans
      ltac:(apply frames_random_calls).
Qed.

End HandlerFacts.

Section AnswerFacts.

(** A handler is its [try] block when that returns, its [catch] block when
    that throws. *)
Lemma app_cases (ep : endpoint) (req : request) (w : world) (s : state) :
  (exists resp s', attempt ep req w s = (Ok resp, s') /\
                   app ep req w s = (Ok resp, s') /\ plain resp /\
                   logged s' = logged s) \/
  (exists e s', attempt ep req w s = (Throw e, s') /\
                app ep req w s =
                (Ok (res_status_json 500
                       (VObj [("error", VStr (apology ep));
                              ("mensaje", VStr (message e))])),
                 after_log s' (label ep ++ " " ++ message e)) /\
                logged s' = logged s).
Proof.
  rewrite app_label.
  pose proof (attempt_same_log ep req w s) as Hlog.
  destruct (attempt ep req w s) as [[resp|e] s'] eqn:E; cbn [snd] in Hlog.
  - left. exists resp, s'. repeat split; try assumption.
    + apply (try_ok _ _ _ _ _ _ E).
    + apply (attempt_returns ep req w s resp s' E).
    + apply (attempt_returns ep req w s resp s' E).
  - right. exists e, s'. repeat split; try assumption.
    rewrite (try_throw _ _ _ _ _ _ E). apply catch_500_run.
Qed.

Lemma bind_axios_state {A} url (rest : value -> M A) w s :
  (forall data, pure (rest data)) ->
  snd (bind (axios_get url) rest w s) = after_call s url.
Proof.
  intros H. unfold bind, axios_get.
  destruct (upstream w url) as [data|e]; [|reflexivity].
  apply (pure_run (rest data) w _ (H data)).
Qed.

Lemma wiki_try_state (req : request) (w : world) (s : state) :
  snd (wiki_try req w s) = s \/
  exists c, JS.ToString (JS.assoc (query req) "ciudad") = Ok c /\
            snd (wiki_try req w s) = after_call s (wiki_url c).
Proof.
  unfold wiki_try. cbv zeta.
  destruct (JS.truthy (JS.assoc (query req) "ciudad")); cbn [negb];
    [|left; reflexivity].
  destruct (JS.ToString (JS.assoc (query req) "ciudad")) as [c|e] eqn:E.
  - right. exists c. split; [reflexivity|].
    rewrite (bind_ok _ _ _ _ _ _ (encodeURIComponent_run _ _ w s E)).
    apply bind_axios_state. intros data. purely.
  - left. unfold encodeURIComponent, bind, lift. now rewrite E.
Qed.

Lemma clima_try_state (req : request) (w : world) (s : state) :
  snd (clima_try req w s) = s \/
  exists c k, JS.ToString (JS.assoc (query req) "ciudad") = Ok c /\
              OPENWEATHER_API_KEY w = Some k /\ k <> "" /\
              snd (clima_try req w s) = after_call s (clima_url c k).
Proof.
  unfold clima_try. cbv zeta.
  destruct (JS.truthy (JS.assoc (query req) "ciudad")); cbn [negb];
    [|left; reflexivity].
  rewrite (bind_ok _ _ _ _ _ _ (credential_run w s)).
  unfold credential.
  destruct (OPENWEATHER_API_KEY w) as [k|] eqn:Ek; [|left; reflexivity].
  destruct (String.eqb_spec k "") as [->|Hk]; [left; reflexivity|].
  rewrite (truthy_string k Hk). cbn [negb].
  destruct (JS.ToString (JS.assoc (query req) "ciudad")) as [c|e] eqn:E.
  - right. exists c, k. repeat split; try assumption.
    rewrite (bind_ok _ _ _ _ _ _ (encodeURIComponent_run _ _ w s E)).
    rewrite (bind_ok _ _ _ _ _ _ (template_string _ k "" w s)).
    replace (_ ++ k ++ "")%string with (clima_url c k).
    + apply bind_axios_state. intros data. purely.
    + unfold clima_url. rewrite append_empty. simpl. now rewrite append_assoc.
  - left. unfold encodeURIComponent, bind, lift. now rewrite E.
Qed.

Lemma app_called (ep : endpoint) (req : request) (w : world) (s : state) :
  called (snd (app ep req w s)) = called (snd (attempt ep req w s)).
Proof.
  destruct (app_cases ep req w s)
    as [(resp & s' & E & -> & _) | (e & s' & E & -> & _)];
    rewrite E; reflexivity.
Qed.

End AnswerFacts.


(** X3: a handler makes at most one outbound call.  /vuelos, /hospedaje and
    /consejos make none; /wiki only requests the summary URL of the
    percent-encoded city; /clima only requests the weather URL of the
    encoded city and the configured credential, and requests nothing when
    the credential is missing or empty. *)
Theorem outbound_calls
    (ep : endpoint) (req : request) (w : world) (s : state) :
  called (snd (app ep req w s)) = called s \/
  (ep = Wiki /\
   exists c, JS.ToString (JS.assoc (query req) "ciudad") = Ok c /\
             called (snd (app ep req w s)) = (called s ++ [wiki_url c])%list) \/
  (ep = Clima /\
   exists c k, JS.ToString (JS.assoc (query req) "ciudad") = Ok c /\
               OPENWEATHER_API_KEY w = Some k /\ k <> "" /\
               called (snd (app ep req w s)) = (called s ++ [clima_url c k])%list).
Proof.
  rewrite !app_called.
  destruct ep; cbn [attempt].
  - destruct (wiki_try_state req w s) as [->|(c & Hc & ->)]; [now left|].
    right; left. split; [reflexivity|]. now exists c.
  - destruct (clima_try_state req w s) as [->|(c & k & Hc & Hk & Hne & ->)];
      [now left|].
    right; right. split; [reflexivity|]. now exists c, k.
  - left. apply (attempt_same_calls Vuelos req); discriminate.
  - left. apply (attempt_same_calls Hospedaje req); discriminate.
  - left. apply (attempt_same_calls Consejos req); discriminate.
Qed.

(** X4: a handler writes a log line exactly when its [catch] block answers:
    either nothing is logged and the body has no [mensaje] field, or the
    answer is the 500 of the route with a [mensaje], and the one new log
    line is the label of the route followed by that same message. *)
Theorem catch_is_logged
    (ep : endpoint) (req : request) (w : world) (s : state) :
  exists resp s',
    app ep req w s = (Ok resp, s') /\
    ((logged s' = logged s /\ JS.get (json resp) "mensaje" = VUndefined) \/
     (exists m,
        resp = res_status_json 500
                 (VObj [("error", VStr (apology ep)); ("mensaje", VStr m)]) /\
        logged s' = (logged s ++ [(label ep ++ " " ++ m)%string])%list)).
Proof.
  destruct (app_cases ep req w s)
    as [(resp & s' & _ & E & [G _] & L) | (e & s' & _ & E & L)];
    rewrite E; do 2 eexists; (split; [reflexivity|]).
  - left. now split.
  - right. exists (message e). split; [reflexivity|].
    cbn [after_log logged]. now rewrite L.
Qed.

(** ** Validation and the tool catalogue *)

Section ValidationFacts.

Lemma catalogue_required_eq (ep : endpoint) :
  catalogue_required ep = required ep.
Proof. destruct ep; reflexivity. Qed.

(** With every required parameter there, no handler answers 400. *)
Lemma truthy_parameters_not_400 (ep : endpoint) (req : request) :
  (forall p, In p (required ep) -> JS.truthy (parameter ep req p) = true) ->
  returns (fun resp => status resp <> 400) (attempt ep req).
Proof.
  intros H.
  destruct ep; cbn [attempt]; cbn [required parameter] in H.
  - unfold wiki_try. rewrite (H "ciudad") by (simpl; auto).
    cbn [negb orb]. returning ltac:(cbn; discriminate).
  - unfold clima_try. rewrite (H "ciudad") by (simpl; auto).
    cbn [negb orb]. returning ltac:(cbn; discriminate).
  - unfold vuelos_try.
    rewrite (H "origen"), (H "destino"), (H "fecha") by (simpl; auto).
    cbn [negb orb]. returning ltac:(cbn; discriminate).
  - unfold hospedaje_try. rewrite (H "ciudad") by (simpl; auto).
    cbn [negb orb]. returning ltac:(cbn; discriminate).
  - unfold consejos_try. rewrite (H "destino") by (simpl; auto).
    cbn [negb orb]. returning ltac:(cbn; discriminate).
Qed.

Lemma falsy_or_all_truthy (ep : endpoint) (req : request) :
  (exists p, In p (required ep) /\ JS.truthy (parameter ep req p) = false) \/
  (forall p, In p (required ep) -> JS.truthy (parameter ep req p) = true).
Proof.
  induction (required ep) as [|p l IH].
  - right. intros p [].
  - destruct (JS.truthy (parameter ep req p)) eqn:E.
    + destruct IH as [(q & Hq & Hf)|IH].
      * left. exists q. split; [now right | assumption].
      * right. intros q [<-|Hq]; auto.
    + left. exists p. split; [now left | assumption].
Qed.

End ValidationFacts.

(** X2: the [required] lists that GET /tools publishes are the parameters
    the handlers insist on: a handler answers 400 exactly when one of the
    parameters the catalogue requires of its tool is missing or falsy,
    whatever else the request holds (the parameters the catalogue only
    declares are optional). *)
Theorem bad_request_iff_required
    (ep : endpoint) (req : request) (w : world) (s : state) :
  parsed ep req = true ->
  (exists resp s', app ep req w s = (Ok resp, s') /\ status resp = 400) <->
  (exists p, In p (catalogue_required ep) /\
             JS.truthy (parameter ep req p) = false).
Proof.
  intros Hparsed. rewrite catalogue_required_eq. split.
  - intros (resp & s' & E & H400).
    destruct (falsy_or_all_truthy ep req) as [F|T]; [exact F|]. exfalso.
    destruct (app_cases ep req w s)
      as [(r & s1 & Ea & E' & _) | (e & s1 & _ & E' & _)];
      rewrite E' in E; injection E as <- _.
    + exact (truthy_parameters_not_400 ep req T w s r s1 Ea H400).
    + discriminate.
  - intros (p & Hin & Hf).
    exists (missing (complaint ep)), s. split; [|reflexivity].
    exact (falsy_parameter ep req w s p Hparsed Hin Hf).
Qed.

Lemma bad_request_iff_required_witness :
  parsed Hospedaje Sample.ciudad_lima_fechas = true /\
  ((exists resp s',
      app Hospedaje Sample.ciudad_lima_fechas Sample.offline start
        = (Ok resp, s') /\ status resp = 400) <->
   (exists p, In p (catalogue_required Hospedaje) /\
              JS.truthy (parameter Hospedaje Sample.ciudad_lima_fechas p)
                = false)).
Proof.
  split; [reflexivity|].
  apply (bad_request_iff_required Hospedaje Sample.ciudad_lima_fechas
           Sample.offline start).
  reflexivity.
Defined.

(** ** What the handlers read *)

(** X5: the outcome of a handler, answer and state, depends on the world
    only through what the route reads: /wiki through the upstream services,
    /clima through the upstream services and the weather credential,
    /vuelos and /hospedaje through the random source, /consejos through
    nothing.  So the credential matters to /clima alone, and no proxy
    depends on the random source. *)
Theorem handlers_read
    (ep : endpoint) (req : request) (w1 w2 : world) (s : state) :
  (forall r, uses ep r = true -> agree r w1 w2) ->
  app ep req w1 s = app ep req w2 s.
Proof.
  intros H.
  assert (Hres : respects (fun w1 w2 => forall r, uses ep r = true ->
                                                  agree r w1 w2)
                          (app ep req)); [|exact (Hres w1 w2 s H)].
  clear. destruct ep; cbn [app];
    [unfold wiki, wiki_try | unfold clima, clima_try
     | unfold vuelos, vuelos_try | unfold hospedaje, hospedaje_try
     | unfold consejos, consejos_try];
    unfold random_below;
    respecting
      ltac:(first
        [ apply respects_catch
        | apply respects_random; intros ? ? HR; apply HR; reflexivity
        | apply respects_axios; intros ? ? HR; apply HR; reflexivity
        | apply respects_env; intros ? ? HR; apply HR; reflexivity ]).
Qed.

Lemma handlers_read_witness :
  uses Wiki Credential = false /\
  app Wiki Sample.ciudad_lima Sample.offline start =
  app Wiki Sample.ciudad_lima
      {| random := fun _ => Sample.one_half;
         upstream := Sample.encyclopedia;
         OPENWEATHER_API_KEY := Some "k3y" |} start.
Proof.
  split; [reflexivity|].
  apply (handlers_read Wiki Sample.ciudad_lima Sample.offline _ start).
  intros [] H; try discriminate H. intros url. reflexivity.
Defined.

(** ** Every price can come out *)

Section OntoFacts.

(** [Math.floor(Math.random() * n)] takes every value of 0..n-1, for the
    five literals of the handlers. *)
Lemma random_below_onto (n k : Z) :
  In n [100; 150; 200; 300; 1000] -> 0 <= k < n ->
  Double.floor (Double.times (at_least k n) n) = k.
Proof.
  intros Hn Hk.
  assert (H : (if k <? n
               then Double.floor (Double.times (at_least k n) n) =? k
               else true) = true).
  { assert (Hk' : 0 <= k < 1000).
    { simpl in Hn. destruct Hn as [<-|[<-|[<-|[<-|[<-|[]]]]]]; lia. }
    clear Hk. revert k Hk'. simpl in Hn.
    destruct Hn as [<-|[<-|[<-|[<-|[<-|[]]]]]];
      apply (below_1000
               (fun k => if k <? _
                         then Double.floor (Double.times (at_least k _) _) =? k
                         else true));
      vm_compute; reflexivity. }
  destruct (Z.ltb_spec k n); [|lia]. now apply Z.eqb_eq.
Qed.

Lemma source_at (l : list Double.unit_double) (from i : nat) :
  source l from (i + from) = nth i l (dyadic 0).
Proof. unfold source. now rewrite Nat.add_sub. Qed.

End OntoFacts.

(** X6: the ranges of /vuelos are tight: for every request with its three
    fields, every choice of three flight-number suffixes of 0..999 and of
    three prices of [200,500), [180,480) and [220,520) is the answer under
    some random source. *)
Theorem vuelos_every_offer
    (req : request) (w : world) (s : state) (n1 p1 n2 p2 n3 p3 : Z) :
  JS.truthy (JS.get (body req) "origen") = true ->
  JS.truthy (JS.get (body req) "destino") = true ->
  JS.truthy (JS.get (body req) "fecha") = true ->
  0 <= n1 <= 999 -> 0 <= n2 <= 999 -> 0 <= n3 <= 999 ->
  200 <= p1 < 500 -> 180 <= p2 < 480 -> 220 <= p3 < 520 ->
  exists r,
    fst (vuelos req (with_random w r) s) =
    Ok {| status := 200;
          json := VObj [("vuelos", VArr [
            flight_offer "Avianca" ("AV" ++ Str.of_nonneg n1)
              (JS.get (body req) "origen") (JS.get (body req) "destino")
              (JS.get (body req) "fecha") "08:30" "10:45" "2h 15m" p1 0;
            flight_offer "LATAM" ("LA" ++ Str.of_nonneg n2)
              (JS.get (body req) "origen") (JS.get (body req) "destino")
              (JS.get (body req) "fecha") "12:15" "14:50" "2h 35m" p2 1;
            flight_offer "Copa Airlines" ("CM" ++ Str.of_nonneg n3)
              (JS.get (body req) "origen") (JS.get (body req) "destino")
              (JS.get (body req) "fecha") "16:40" "19:10" "2h 30m" p3 0])] |}.
Proof.
  intros Ho Hd Hf N1 N2 N3 P1 P2 P3.
  exists (source [at_least n1 1000; at_least (p1 - 200) 300;
                  at_least n2 1000; at_least (p2 - 180) 300;
                  at_least n3 1000; at_least (p3 - 220) 300] (drawn s)).
  rewrite (vuelos_run req _ s Ho Hd Hf). cbn [fst random with_random].
  rewrite !source_at. cbn [nth].
  rewrite !random_below_onto by (simpl; auto 6; lia).
  unfold concat_number. rewrite !number_to_string_integer by lia.
  rewrite !Z.sub_add. reflexivity.
Qed.

Lemma vuelos_every_offer_witness :
  JS.truthy (JS.get (body Sample.bogota_lima) "origen") = true /\
  exists r,
    fst (vuelos Sample.bogota_lima (with_random Sample.offline r) start) =
    Ok {| status := 200;
          json := VObj [("vuelos", VArr [
            flight_offer "Avianca" ("AV" ++ Str.of_nonneg 7)
              (JS.get (body Sample.bogota_lima) "origen")
              (JS.get (body Sample.bogota_lima) "destino")
              (JS.get (body Sample.bogota_lima) "fecha")
              "08:30" "10:45" "2h 15m" 499 0;
            flight_offer "LATAM" ("LA" ++ Str.of_nonneg 999)
              (JS.get (body Sample.bogota_lima) "origen")
              (JS.get (body Sample.bogota_lima) "destino")
              (JS.get (body Sample.bogota_lima) "fecha")
              "12:15" "14:50" "2h 35m" 180 1;
            flight_offer "Copa Airlines" ("CM" ++ Str.of_nonneg 0)
              (JS.get (body Sample.bogota_lima) "origen")
              (JS.get (body Sample.bogota_lima) "destino")
              (JS.get (body Sample.bogota_lima) "fecha")
              "16:40" "19:10" "2h 30m" 333 0])] |}.
Proof.
  split; [reflexivity|].
  apply (vuelos_every_offer Sample.bogota_lima Sample.offline start
           7 499 999 180 0 333); (reflexivity || lia).
Defined.

(** X7: the ranges of /hospedaje are tight: for every non-empty city name,
    every choice of three prices of [50,150), [80,230) and [120,320) is the
    answer under some random source. *)
Theorem hospedaje_every_offer
    (req : request) (w : world) (s : state) (c : string) (p1 p2 p3 : Z) :
  JS.assoc (query req) "ciudad" = VStr c -> c <> "" ->
  50 <= p1 < 150 -> 80 <= p2 < 230 -> 120 <= p3 < 320 ->
  exists r,
    fst (hospedaje req (with_random w r) s) =
    Ok {| status := 200;
          json := VObj [("hospedajes", VArr [
            lodging_offer "Apartamento Céntrico" "Apartamento entero"
              ("Centro de " ++ c) p1 2 1 4 4.8 123
              "https://via.placeholder.com/300x200?text=Apartamento";
            lodging_offer "Hotel Boutique" "Habitación de hotel"
              ("Zona turística de " ++ c) p2 1 1 2 4.6 87
              "https://via.placeholder.com/300x200?text=Hotel";
            lodging_offer "Casa Familiar" "Casa entera"
              ("Zona residencial de " ++ c) p3 3 2 6 4.9 45
              "https://via.placeholder.com/300x200?text=Casa"])] |}.
Proof.
  intros Hc Hne P1 P2 P3.
  exists (source [at_least (p1 - 50) 100; at_least (p2 - 80) 150;
                  at_least (p3 - 120) 200] (drawn s)).
  rewrite (hospedaje_run req _ s c Hc Hne). cbn [fst random with_random].
  rewrite !source_at. cbn [nth].
  rewrite !random_below_onto by (simpl; auto 6; lia).
  rewrite !Z.sub_add. reflexivity.
Qed.

Lemma hospedaje_every_offer_witness :
  JS.assoc (query Sample.ciudad_lima) "ciudad" = VStr "Lima" /\
  exists r,
    fst (hospedaje Sample.ciudad_lima (with_random Sample.offline r) start) =
    Ok {| status := 200;
          json := VObj [("hospedajes", VArr [
            lodging_offer "Apartamento Céntrico" "Apartamento entero"
              ("Centro de " ++ "Lima") 149 2 1 4 4.8 123
              "https://via.placeholder.com/300x200?text=Apartamento";
            lodging_offer "Hotel Boutique" "Habitación de hotel"
              ("Zona turística de " ++ "Lima") 80 1 1 2 4.6 87
              "https://via.placeholder.com/300x200?text=Hotel";
            lodging_offer "Casa Familiar" "Casa entera"
              ("Zona residencial de " ++ "Lima") 200 3 2 6 4.9 45
              "https://via.placeholder.com/300x200?text=Casa"])] |}.
Proof.
  split; [reflexivity|].
  apply (hospedaje_every_offer Sample.ciudad_lima Sample.offline start "Lima"
           149 80 200); (reflexivity || discriminate || lia).
Defined.

(** ** The URLs that are requested *)

Section EncodingFacts.

Lemma hex_digit_safe (d : nat) : (d < 16)%nat -> uri_safe (Str.hex_digit d) = true.
Proof.
  intros H. do 16 (destruct d as [|d]; [reflexivity|]). lia.
Qed.

Lemma hex_value_digit (d : nat) : (d < 16)%nat -> hex_value (Str.hex_digit d) = d.
Proof.
  intros H. do 16 (destruct d as [|d]; [reflexivity|]). lia.
Qed.

Lemma byte_split (c : ascii) :
  (nat_of_ascii c / 16 < 16)%nat /\ (nat_of_ascii c mod 16 < 16)%nat.
Proof.
  pose proof (nat_ascii_bounded c) as H. split.
  - apply Nat.Div0.div_lt_upper_bound. exact H.
  - apply Nat.mod_upper_bound. discriminate.
Qed.

Lemma percent_encode_safe (s : string) :
  all_chars uri_safe (Str.percent_encode s) = true.
Proof.
  induction s as [|c s IH]; [reflexivity|]. cbn [Str.percent_encode].
  destruct (Str.unreserved c) eqn:E; cbn [all_chars].
  - unfold uri_safe at 1. rewrite E. exact IH.
  - destruct (byte_split c) as [H1 H2].
    rewrite (hex_digit_safe _ H1), (hex_digit_safe _ H2), IH. reflexivity.
Qed.

Lemma includes_char (p : ascii -> bool) (s : string) (c : ascii) :
  all_chars p s = true -> Str.includes s (String c EmptyString) = true ->
  p c = true.
Proof.
  intros Hall Hin. apply includes_spec in Hin as (pre & post & ->).
  induction pre as [|x pre IH]; cbn [append all_chars] in Hall;
    apply andb_prop in Hall as [H1 H2]; [exact H1 | exact (IH H2)].
Qed.

Lemma percent_encode_injective (s1 s2 : string) :
  Str.percent_encode s1 = Str.percent_encode s2 -> s1 = s2.
Proof.
  revert s2. induction s1 as [|c1 s1 IH]; intros [|c2 s2] H;
    cbn [Str.percent_encode] in H.
  - reflexivity.
  - destruct (Str.unreserved c2); discriminate.
  - destruct (Str.unreserved c1); discriminate.
  - destruct (Str.unreserved c1) eqn:E1, (Str.unreserved c2) eqn:E2.
    + injection H as -> H. now rewrite (IH _ H).
    + injection H as -> _. discriminate E1.
    + injection H as <- _. discriminate E2.
    + injection H as Hh Hl H. rewrite (IH _ H). f_equal.
      destruct (byte_split c1) as [A1 B1], (byte_split c2) as [A2 B2].
      assert (Hq : (nat_of_ascii c1 / 16 = nat_of_ascii c2 / 16)%nat).
      { rewrite <- (hex_value_digit _ A1), <- (hex_value_digit _ A2).
        exact (f_equal hex_value Hh). }
      assert (Hr : (nat_of_ascii c1 mod 16 = nat_of_ascii c2 mod 16)%nat).
      { rewrite <- (hex_value_digit _ B1), <- (hex_value_digit _ B2).
        exact (f_equal hex_value Hl). }
      rewrite <- (ascii_nat_embedding c1), <- (ascii_nat_embedding c2).
      f_equal.
      pose proof (Nat.div_mod_eq (nat_of_ascii c1) 16) as D1.
      pose proof (Nat.div_mod_eq (nat_of_ascii c2) 16) as D2.
      rewrite Hq, Hr in D1. congruence.
Qed.

End EncodingFacts.

(** What [encodeURIComponent] returns holds no separator of a URL. *)
Lemma percent_encode_no_separator (c : string) (x : ascii) :
  In x ["&"; "="; "?"; "#"; "/"; ":"; "@"; " "; "+"]%char ->
  Str.includes (Str.percent_encode c) (String x EmptyString) = false.
Proof.
  intros Hx.
  destruct (Str.includes (Str.percent_encode c) (String x EmptyString)) eqn:E;
    [|reflexivity].
  pose proof (includes_char uri_safe _ x (percent_encode_safe c) E) as H.
  simpl in Hx.
  repeat (destruct Hx as [<-|Hx]; [discriminate H|]). contradiction.
Qed.

(** X8: whenever /wiki or /clima makes its outbound call, the URL it hands
    to [axios.get] is the fixed prefix of the route followed by a string
    [e] that consists of unreserved characters, "%" and hexadecimal digits
    only, hence holds none of [& = ? # / : @ +] and no space, followed for
    /clima by the fixed [&units=metric&lang=es&appid=] and the credential:
    [ciudad] brings no separator of its own into the URL. *)
Theorem requested_url_shape
    (ep : endpoint) (req : request) (w : world) (s : state) :
  called (snd (app ep req w s)) = called s \/
  exists e,
    all_chars uri_safe e = true /\
    (forall x, In x ["&"; "="; "?"; "#"; "/"; ":"; "@"; " "; "+"]%char ->
               Str.includes e (String x EmptyString) = false) /\
    ((ep = Wiki /\
      called (snd (app ep req w s)) =
      (called s ++
       [("https://es.wikipedia.org/api/rest_v1/page/summary/" ++ e)%string])
      %list) \/
     (ep = Clima /\
      exists k,
        OPENWEATHER_API_KEY w = Some k /\
        called (snd (app ep req w s)) =
        (called s ++
         [("https://api.openweathermap.org/data/2.5/weather?q=" ++ e ++
           "&units=metric&lang=es&appid=" ++ k)%string])%list)).
Proof.
  rewrite !app_called.
  destruct ep; cbn [attempt].
  - destruct (wiki_try_state req w s) as [->|(c & Hc & ->)]; [now left|].
    right. exists (Str.percent_encode c).
    split; [apply percent_encode_safe|].
    split; [apply percent_encode_no_separator|].
    left. split; reflexivity.
  - destruct (clima_try_state req w s) as [->|(c & k & Hc & Hk & Hne & ->)];
      [now left|].
    right. exists (Str.percent_encode c).
    split; [apply percent_encode_safe|].
    split; [apply percent_encode_no_separator|].
    right. split; [reflexivity|]. exists k. split; [exact Hk | reflexivity].
  - left. apply (attempt_same_calls Vuelos req); discriminate.
  - left. apply (attempt_same_calls Hospedaje req); discriminate.
  - left. apply (attempt_same_calls Consejos req); discriminate.
Qed.

(** X9: two cities are looked up under the same encyclopedia URL only when
    they are the same string. *)
Theorem wiki_url_injective (c1 c2 : string) :
  wiki_url c1 = wiki_url c2 -> c1 = c2.
Proof.
  unfold wiki_url. intros H. apply percent_encode_injective.
  simpl in H. repeat (injection H as H). exact H.
Qed.

Lemma wiki_url_injective_witness :
  wiki_url "Lima" = wiki_url "Lima" /\ "Lima" = "Lima".
Proof.
  split; [reflexivity|].
  apply (wiki_url_injective "Lima" "Lima"). reflexivity.
Defined.

(** ** When a handler answers 200 *)

Section InversionFacts.

Lemma bind_ok_inv {A B} (c : M A) (k : A -> M B) w s b s' :
  bind c k w s = (Ok b, s') ->
  exists a s1, c w s = (Ok a, s1) /\ k a w s1 = (Ok b, s').
Proof.
  unfold bind. destruct (c w s) as [[a|e] s1]; [|discriminate].
  intros H. now exists a, s1.
Qed.

Lemma ret_ok_inv {A} (a b : A) w s s' :
  ret a w s = (Ok b, s') -> b = a /\ s' = s.
Proof. intros H. injection H as -> ->. auto. Qed.

Lemma member_ok_inv v key w s a s' :
  member v key w s = (Ok a, s') ->
  JS.nullish v = false /\ a = JS.get v key /\ s' = s.
Proof.
  unfold member. destruct (JS.nullish v); [discriminate|].
  intros H. injection H as <- <-. auto.
Qed.

Lemma member0_ok_inv v w s a s' :
  member0 v w s = (Ok a, s') ->
  JS.nullish v = false /\ a = JS.get0 v /\ s' = s.
Proof.
  unfold member0. destruct (JS.nullish v); [discriminate|].
  intros H. injection H as <- <-. auto.
Qed.

Lemma destructure_ok_inv v key source w s u s' :
  destructure v key source w s = (Ok u, s') -> JS.nullish v = false /\ s' = s.
Proof.
  unfold destructure. destruct (JS.nullish v); [discriminate|].
  intros H. injection H as _ <-. auto.
Qed.

Lemma toLowerCase_ok_inv name v w s t s' :
  toLowerCase name v w s = (Ok t, s') ->
  exists x, v = VStr x /\ t = Str.toLowerCase x /\ s' = s.
Proof.
  destruct v; try discriminate. intros H. injection H as <- <-. eauto.
Qed.

Lemma template_printed before v after d w s :
  JS.ToString v = Ok d ->
  template before v after w s = (Ok (before ++ d ++ after)%string, s).
Proof. intros H. unfold template, bind, lift. now rewrite H. Qed.

Lemma template_ok_inv before v after w s t s' :
  template before v after w s = (Ok t, s') ->
  exists d, JS.ToString v = Ok d /\ t = (before ++ d ++ after)%string /\ s' = s.
Proof.
  unfold template, bind, lift. destruct (JS.ToString v) as [d|e];
    [|discriminate].
  intros H. injection H as <- <-. eauto.
Qed.

Lemma templates_printed befores v d w s :
  JS.ToString v = Ok d ->
  templates befores v w s =
  (Ok (map (fun b => VStr (b ++ d)%string) befores), s).
Proof.
  intros H. induction befores as [|b l IH]; [reflexivity|].
  cbn [templates map].
  rewrite (bind_ok _ _ _ _ _ _ (template_printed b v "" d w s H)).
  rewrite (bind_ok _ _ _ _ _ _ IH).
  now rewrite append_empty.
Qed.

Lemma templates_ok_inv befores v w s l s' :
  befores <> [] -> templates befores v w s = (Ok l, s') ->
  exists d, JS.ToString v = Ok d.
Proof.
  destruct befores as [|b rest]; [contradiction|]. intros _ H.
  cbn [templates] in H. apply bind_ok_inv in H as (t & s1 & H & _).
  apply template_ok_inv in H as (d & H & _). eauto.
Qed.

Lemma encodeURIComponent_ok_inv v w s t s' :
  encodeURIComponent v w s = (Ok t, s') ->
  exists c, JS.ToString v = Ok c /\ t = Str.percent_encode c /\ s' = s.
Proof.
  unfold encodeURIComponent, bind, lift.
  destruct (JS.ToString v) as [c|e]; [|discriminate].
  intros H. injection H as <- <-. eauto.
Qed.

Lemma axios_get_ok_inv url w s data s' :
  axios_get url w s = (Ok data, s') ->
  upstream w url = Resolved data /\ s' = after_call s url.
Proof.
  unfold axios_get. destruct (upstream w url) as [d|e]; [|discriminate].
  intros H. injection H as <- <-. auto.
Qed.

Lemma default_string v dflt t :
  default v (VStr dflt) = VStr t ->
  optional_string v = true /\ t = text_or dflt v.
Proof. destruct v; try discriminate; intros H; injection H as <-; auto. Qed.

(** What a handler answers is what its [try] block returns, or a 500. *)
Lemma app_ok_200 (ep : endpoint) (req : request) (w : world) (s : state)
      (resp : response) (s' : state) :
  app ep req w s = (Ok resp, s') -> status resp = 200 ->
  attempt ep req w s = (Ok resp, s').
Proof.
  intros E H.
  destruct (app_cases ep req w s)
    as [(r & s1 & Ea & E' & _) | (e & s1 & _ & E' & _)];
    rewrite E' in E; injection E as <- <-; [exact Ea | discriminate H].
Qed.

End InversionFacts.

Section ConsejosCases.

(** [/consejos] for any [destino] that is there and prints. *)
Lemma consejos_printed (req : request) (w : world) (s : state) (d : string) :
  JS.truthy (JS.get (body req) "destino") = true ->
  JS.ToString (JS.get (body req) "destino") = Ok d ->
  optional_string (JS.get (body req) "tipoViaje") = true ->
  optional_string (JS.get (body req) "presupuesto") = true ->
  consejos req w s =
  (Ok (res_json
         (VObj [("destino", JS.get (body req) "destino");
                ("tipoViaje",
                 VStr (text_or "vacaciones" (JS.get (body req) "tipoViaje")));
                ("presupuesto",
                 VStr (text_or "medio" (JS.get (body req) "presupuesto")));
                ("recomendaciones",
                 VArr (map (fun b => VStr (b ++ d)%string)
                         (pick (text_or "vacaciones"
                                  (JS.get (body req) "tipoViaje")))));
                ("consejoPresupuesto",
                 VStr (fst (tier (text_or "medio"
                                    (JS.get (body req) "presupuesto")))
                       ++ d ++
                       snd (tier (text_or "medio"
                                    (JS.get (body req) "presupuesto"))))%string)])),
   s).
Proof.
  intros Htr Hd Ht Hp.
  set (t := text_or "vacaciones" (JS.get (body req) "tipoViaje")).
  set (p := text_or "medio" (JS.get (body req) "presupuesto")).
  assert (Hdt : default (JS.get (body req) "tipoViaje") (VStr "vacaciones")
                = VStr t).
  { subst t. destruct (JS.get (body req) "tipoViaje"); try discriminate;
      reflexivity. }
  assert (Hdp : default (JS.get (body req) "presupuesto") (VStr "medio")
                = VStr p).
  { subst p. destruct (JS.get (body req) "presupuesto"); try discriminate;
      reflexivity. }
  unfold consejos. apply try_ok.
  unfold consejos_try, destructure.
  rewrite (truthy_not_nullish _ _ Htr), Htr, Hdt, Hdp. cbn [negb].
  unfold bind at 1. cbn [ret].
  unfold bind at 1. cbn [toLowerCase ret].
  match goal with
  | |- bind ?c _ _ _ = _ =>
      assert (Hrec : c w s =
                (Ok (map (fun b => VStr (b ++ d)%string) (pick t)), s))
  end.
  { unfold pick.
    destruct (Str.includes (Str.toLowerCase t) "negocio");
      [now apply templates_printed|].
    unfold bind at 1. cbn [toLowerCase ret].
    destruct (Str.includes (Str.toLowerCase t) "aventura");
      [now apply templates_printed|].
    unfold bind at 1. cbn [toLowerCase ret].
    destruct (Str.includes (Str.toLowerCase t) "cultural");
      now apply templates_printed. }
  rewrite (bind_ok _ _ _ _ _ _ Hrec).
  unfold bind at 1. cbn [toLowerCase ret].
  match goal with
  | |- bind ?c _ _ _ = _ =>
      assert (Hnote : c w s = (Ok (fst (tier p) ++ d ++ snd (tier p))%string, s))
  end.
  { unfold tier.
    destruct (Str.toLowerCase p =? "bajo")%string;
      [now apply template_printed|].
    unfold bind at 1. cbn [toLowerCase ret].
    destruct (Str.toLowerCase p =? "alto")%string; now apply template_printed. }
  rewrite (bind_ok _ _ _ _ _ _ Hnote).
  reflexivity.
Qed.

(** What a 200 of [/consejos] tells of the request. *)
Lemma consejos_ok_inv (req : request) (w : world) (s : state)
      (resp : response) (s' : state) :
  consejos_try req w s = (Ok resp, s') -> status resp = 200 ->
  JS.truthy (JS.get (body req) "destino") = true /\
  (exists d, JS.ToString (JS.get (body req) "destino") = Ok d) /\
  optional_string (JS.get (body req) "tipoViaje") = true /\
  optional_string (JS.get (body req) "presupuesto") = true.
Proof.
  intros E H200. unfold consejos_try in E. cbv zeta in E.
  apply bind_ok_inv in E as (u & s1 & _ & E).
  destruct (JS.truthy (JS.get (body req) "destino")) eqn:Htr; cbn [negb] in E.
  2:{ apply ret_ok_inv in E as [-> _]. discriminate H200. }
  apply bind_ok_inv in E as (t & s2 & Et & E).
  apply toLowerCase_ok_inv in Et as (x & Hx & -> & ->).
  apply default_string in Hx as [Ht _].
  apply bind_ok_inv in E as (r & s3 & Er & E).
  assert (Hd : exists d, JS.ToString (JS.get (body req) "destino") = Ok d).
  { repeat match type of Er with
           | (if ?b then _ else _) _ _ = _ => destruct b
           | bind _ _ _ _ = _ => apply bind_ok_inv in Er as (? & ? & _ & Er)
           end;
      apply templates_ok_inv in Er; auto; discriminate. }
  apply bind_ok_inv in E as (p & s4 & Ep & _).
  apply toLowerCase_ok_inv in Ep as (y & Hy & _).
  apply default_string in Hy as [Hp _].
  auto.
Qed.

End ConsejosCases.

(** X10: POST /consejos answers 200 exactly when [destino] is there (truthy)
    and prints, and [tipoViaje] and [presupuesto] are each a string or
    missing.  A [null], a number, a boolean, a list or an object there has
    no [toLowerCase], the default only replaces a missing field, and the
    request ends in the [catch] block. *)
Theorem consejos_answers_200_iff (req : request) (w : world) (s : state) :
  (exists resp s', consejos req w s = (Ok resp, s') /\ status resp = 200) <->
  (JS.truthy (JS.get (body req) "destino") = true /\
   (exists d, JS.ToString (JS.get (body req) "destino") = Ok d) /\
   optional_string (JS.get (body req) "tipoViaje") = true /\
   optional_string (JS.get (body req) "presupuesto") = true).
Proof.
  split.
  - intros (resp & s' & E & H).
    apply (consejos_ok_inv req w s resp s'); [|exact H].
    exact (app_ok_200 Consejos req w s resp s' E H).
  - intros (Htr & (d & Hd) & Ht & Hp).
    rewrite (consejos_printed req w s d Htr Hd Ht Hp).
    do 2 eexists. split; reflexivity.
Qed.

Section ProxyCases.

Lemma member0_run v w s :
  JS.nullish v = false -> member0 v w s = (Ok (JS.get0 v), s).
Proof. intros H. unfold member0. now rewrite H. Qed.

Lemma wiki_printed (req : request) (w : world) (s : state) (c : string)
      (data : value) :
  JS.truthy (JS.assoc (query req) "ciudad") = true ->
  JS.ToString (JS.assoc (query req) "ciudad") = Ok c ->
  upstream w (wiki_url c) = Resolved data ->
  JS.nullish data = false ->
  wiki req w s =
  (Ok (res_json (wiki_summary_of data)), after_call s (wiki_url c)).
Proof.
  intros Ht Hc Hu Hd. unfold wiki. apply try_ok.
  unfold wiki_try. rewrite Ht. cbn [negb].
  rewrite (bind_ok _ _ _ _ _ _ (encodeURIComponent_run _ c w s Hc)).
  rewrite (bind_ok _ _ _ _ _ _ (axios_get_resolved _ _ w s Hu)).
  rewrite !(bind_ok _ _ _ _ _ _ (member_run data _ w _ Hd)).
  unfold wiki_summary_of, path. cbn [fold_left].
  rewrite !(optional_present data) by exact Hd.
  reflexivity.
Qed.

Lemma wiki_ok_inv (req : request) (w : world) (s : state)
      (resp : response) (s' : state) :
  wiki_try req w s = (Ok resp, s') -> status resp = 200 ->
  JS.truthy (JS.assoc (query req) "ciudad") = true /\
  exists c data,
    JS.ToString (JS.assoc (query req) "ciudad") = Ok c /\
    upstream w (wiki_url c) = Resolved data /\ JS.nullish data = false.
Proof.
  intros E H200. unfold wiki_try in E. cbv zeta in E.
  destruct (JS.truthy (JS.assoc (query req) "ciudad")) eqn:Ht; cbn [negb] in E.
  2:{ apply ret_ok_inv in E as [-> _]. discriminate H200. }
  split; [reflexivity|].
  apply bind_ok_inv in E as (t & s1 & Ec & E).
  apply encodeURIComponent_ok_inv in Ec as (c & Hc & -> & ->).
  apply bind_ok_inv in E as (data & s2 & Ea & E).
  apply axios_get_ok_inv in Ea as [Hu ->].
  apply bind_ok_inv in E as (titulo & s3 & Em & _).
  apply member_ok_inv in Em as (Hd & _).
  now exists c, data.
Qed.

Lemma clima_printed (req : request) (w : world) (s : state) (c k i : string)
      (data : value) :
  JS.truthy (JS.assoc (query req) "ciudad") = true ->
  JS.ToString (JS.assoc (query req) "ciudad") = Ok c ->
  OPENWEATHER_API_KEY w = Some k -> k <> "" ->
  upstream w (clima_url c k) = Resolved data ->
  readable_weather data i ->
  clima req w s =
  (Ok (res_json (weather_report data i)), after_call s (clima_url c k)).
Proof.
  intros Ht Hc Hk Hne Hu (Hd & Hsys & Hmain & Hw & Hw0 & Hi).
  unfold clima. apply try_ok.
  unfold clima_try. rewrite Ht. cbn [negb].
  rewrite (bind_ok _ _ _ _ _ _ (credential_run w s)).
  unfold credential. rewrite Hk, (truthy_string k Hne). cbn [negb].
  rewrite (bind_ok _ _ _ _ _ _ (encodeURIComponent_run _ c w s Hc)).
  rewrite (bind_ok _ _ _ _ _ _ (template_string _ k "" w s)).
  replace (_ ++ k ++ "")%string with (clima_url c k)
    by (unfold clima_url; rewrite append_empty; simpl;
        now rewrite append_assoc).
  rewrite (bind_ok _ _ _ _ _ _ (axios_get_resolved _ _ w s Hu)).
  repeat first
    [ rewrite (bind_ok _ _ _ _ _ _ (member_run _ _ w _ Hd))
    | rewrite (bind_ok _ _ _ _ _ _ (member_run _ _ w _ Hsys))
    | rewrite (bind_ok _ _ _ _ _ _ (member_run _ _ w _ Hmain))
    | rewrite (bind_ok _ _ _ _ _ _ (member_run _ _ w _ Hw0))
    | rewrite (bind_ok _ _ _ _ _ _ (member0_run _ w _ Hw)) ].
  rewrite (bind_ok _ _ _ _ _ _ (template_printed _ _ _ i w _ Hi)).
  reflexivity.
Qed.

Lemma clima_ok_inv (req : request) (w : world) (s : state)
      (resp : response) (s' : state) :
  clima_try req w s = (Ok resp, s') -> status resp = 200 ->
  JS.truthy (JS.assoc (query req) "ciudad") = true /\
  exists c k data i,
    JS.ToString (JS.assoc (query req) "ciudad") = Ok c /\
    OPENWEATHER_API_KEY w = Some k /\ k <> "" /\
    upstream w (clima_url c k) = Resolved data /\
    readable_weather data i.
Proof.
  intros E H200. unfold clima_try in E. cbv zeta in E.
  destruct (JS.truthy (JS.assoc (query req) "ciudad")) eqn:Ht; cbn [negb] in E.
  2:{ apply ret_ok_inv in E as [-> _]. discriminate H200. }
  split; [reflexivity|].
  rewrite (bind_ok _ _ _ _ _ _ (credential_run w s)) in E.
  unfold credential in E.
  destruct (OPENWEATHER_API_KEY w) as [k|] eqn:Hk.
  2:{ apply ret_ok_inv in E as [-> _]. discriminate H200. }
  destruct (String.eqb_spec k "") as [->|Hne].
  { apply ret_ok_inv in E as [-> _]. discriminate H200. }
  rewrite (truthy_string k Hne) in E. cbn [negb] in E.
  apply bind_ok_inv in E as (t & s1 & Ec & E).
  apply encodeURIComponent_ok_inv in Ec as (c & Hc & -> & ->).
  rewrite (bind_ok _ _ _ _ _ _ (template_string _ k "" w s)) in E.
  replace (_ ++ k ++ "")%string with (clima_url c k) in E
    by (unfold clima_url; rewrite append_empty; simpl;
        now rewrite append_assoc).
  apply bind_ok_inv in E as (data & s2 & Ea & E).
  apply axios_get_ok_inv in Ea as [Hu ->].
  apply bind_ok_inv in E as (name & s3 & Em & E).
  apply member_ok_inv in Em as (Hd & -> & ->).
  apply bind_ok_inv in E as (sys & s4 & Em & E).
  apply member_ok_inv in Em as (_ & -> & ->).
  apply bind_ok_inv in E as (country & s5 & Em & E).
  apply member_ok_inv in Em as (Hsys & -> & ->).
  apply bind_ok_inv in E as (main & s6 & Em & E).
  apply member_ok_inv in Em as (_ & -> & ->).
  apply bind_ok_inv in E as (temp & s7 & Em & E).
  apply member_ok_inv in Em as (Hmain & -> & ->).
  do 4 (apply bind_ok_inv in E as (? & ? & Em & E);
        apply member_ok_inv in Em as (_ & -> & ->)).
  apply bind_ok_inv in E as (weather & s8 & Em & E).
  apply member_ok_inv in Em as (_ & -> & ->).
  apply bind_ok_inv in E as (weather0 & s9 & Em & E).
  apply member0_ok_inv in Em as (Hw & -> & ->).
  apply bind_ok_inv in E as (description & s10 & Em & E).
  apply member_ok_inv in Em as (Hw0 & -> & ->).
  apply bind_ok_inv in E as (? & ? & Em & E).
  apply member_ok_inv in Em as (_ & -> & ->).
  apply bind_ok_inv in E as (? & ? & Em & E).
  apply member0_ok_inv in Em as (_ & -> & ->).
  apply bind_ok_inv in E as (icon & ? & Em & E).
  apply member_ok_inv in Em as (_ & -> & ->).
  apply bind_ok_inv in E as (icono & ? & Em & _).
  apply template_ok_inv in Em as (i & Hi & _).
  exists c, k, data, i. unfold readable_weather. auto 10.
Qed.

End ProxyCases.

(** X11: GET /wiki answers 200 exactly when [ciudad] is there and prints,
    and the upstream resolves with an answer that is not [null]; and under
    these conditions the body is the summary made of that answer, and the
    one outbound call is recorded. *)
Theorem wiki_answers_200_iff (req : request) (w : world) (s : state) :
  ((exists resp s', wiki req w s = (Ok resp, s') /\ status resp = 200) <->
   (JS.truthy (JS.assoc (query req) "ciudad") = true /\
    exists c data,
      JS.ToString (JS.assoc (query req) "ciudad") = Ok c /\
      upstream w (wiki_url c) = Resolved data /\ JS.nullish data = false)) /\
  (forall c data,
     JS.truthy (JS.assoc (query req) "ciudad") = true ->
     JS.ToString (JS.assoc (query req) "ciudad") = Ok c ->
     upstream w (wiki_url c) = Resolved data -> JS.nullish data = false ->
     wiki req w s =
     (Ok {| status := 200; json := wiki_summary_of data |},
      after_call s (wiki_url c))).
Proof.
  split; [split|].
  - intros (resp & s' & E & H).
    pose proof (app_ok_200 Wiki req w s resp s' E H) as Ea.
    exact (wiki_ok_inv req w s resp s' Ea H).
  - intros (Ht & c & data & Hc & Hu & Hd).
    rewrite (wiki_printed req w s c data Ht Hc Hu Hd).
    do 2 eexists. split; reflexivity.
  - intros c data Ht Hc Hu Hd. exact (wiki_printed req w s c data Ht Hc Hu Hd).
Qed.

Lemma wiki_answers_200_iff_witness :
  (exists resp s',
     wiki Sample.ciudad_lima Sample.configured start = (Ok resp, s') /\
     status resp = 200) /\
  wiki Sample.ciudad_lima Sample.configured start =
  (Ok {| status := 200; json := wiki_summary_of Sample.lima_summary |},
   after_call start (wiki_url "Lima")).
Proof.
  split.
  - apply (proj2 (proj1 (wiki_answers_200_iff Sample.ciudad_lima
                           Sample.configured start))).
    split; [reflexivity|].
    exists "Lima", Sample.lima_summary. repeat split.
  - apply (proj2 (wiki_answers_200_iff Sample.ciudad_lima Sample.configured
                    start) "Lima" Sample.lima_summary); reflexivity.
Defined.

(** X12: GET /clima answers 200 exactly when [ciudad] is there and prints,
    the credential is configured and not empty, and the upstream resolves
    with an answer whose [sys], [main], [weather] and [weather[0]] are
    there and whose icon code prints; and under these conditions the body
    is the report made of that answer, with the icon URL built around the
    icon code, and the one outbound call is recorded. *)
Theorem clima_answers_200_iff (req : request) (w : world) (s : state) :
  ((exists resp s', clima req w s = (Ok resp, s') /\ status resp = 200) <->
   (JS.truthy (JS.assoc (query req) "ciudad") = true /\
    exists c k data i,
      JS.ToString (JS.assoc (query req) "ciudad") = Ok c /\
      OPENWEATHER_API_KEY w = Some k /\ k <> "" /\
      upstream w (clima_url c k) = Resolved data /\
      readable_weather data i)) /\
  (forall c k data i,
     JS.truthy (JS.assoc (query req) "ciudad") = true ->
     JS.ToString (JS.assoc (query req) "ciudad") = Ok c ->
     OPENWEATHER_API_KEY w = Some k -> k <> "" ->
     upstream w (clima_url c k) = Resolved data ->
     readable_weather data i ->
     clima req w s =
     (Ok {| status := 200; json := weather_report data i |},
      after_call s (clima_url c k))).
Proof.
  split; [split|].
  - intros (resp & s' & E & H).
    pose proof (app_ok_200 Clima req w s resp s' E H) as Ea.
    exact (clima_ok_inv req w s resp s' Ea H).
  - intros (Ht & c & k & data & i & Hc & Hk & Hne & Hu & Hr).
    rewrite (clima_printed req w s c k i data Ht Hc Hk Hne Hu Hr).
    do 2 eexists. split; reflexivity.
  - intros c k data i Ht Hc Hk Hne Hu Hr.
    exact (clima_printed req w s c k i data Ht Hc Hk Hne Hu Hr).
Qed.

Lemma clima_answers_200_iff_witness :
  (exists resp s',
     clima Sample.ciudad_lima Sample.forecast start = (Ok resp, s') /\
     status resp = 200) /\
  clima Sample.ciudad_lima Sample.forecast start =
  (Ok {| status := 200; json := weather_report Sample.lima_weather "04d" |},
   after_call start (clima_url "Lima" "k3y")).
Proof.
  split.
  - apply (proj2 (proj1 (clima_answers_200_iff Sample.ciudad_lima
                           Sample.forecast start))).
    split; [reflexivity|].
    exists "Lima", "k3y", Sample.lima_weather, "04d".
    repeat split; discriminate.
  - apply (proj2 (clima_answers_200_iff Sample.ciudad_lima Sample.forecast
                    start) "Lima" "k3y" Sample.lima_weather "04d");
      try reflexivity; [discriminate | repeat split].
Defined.

Section MockCases.

Lemma vuelos_without_body_run (req : request) (w : world) (s : state) :
  JS.nullish (body req) = true ->
  exists m,
    vuelos req w s =
    (Ok (res_status_json 500
           (VObj [("error", VStr "Error al buscar vuelos");
                  ("mensaje", VStr m)])),
     after_log s ("Error buscando vuelos: " ++ m)).
Proof.
  intros H. eexists. unfold vuelos.
  erewrite try_throw.
  2:{ unfold vuelos_try. apply bind_throw. unfold destructure. rewrite H.
      reflexivity. }
  rewrite catch_500_run. reflexivity.
Qed.

Lemma nullish_get (v : value) (key : string) :
  JS.nullish v = true -> JS.get v key = VUndefined.
Proof. destruct v; try discriminate; reflexivity. Qed.

Lemma hospedaje_printed (req : request) (w : world) (s : state) (c : string) :
  JS.truthy (JS.assoc (query req) "ciudad") = true ->
  JS.ToString (JS.assoc (query req) "ciudad") = Ok c ->
  let draw i n := Double.floor (Double.times (random w (i + drawn s)%nat) n) in
  hospedaje req w s =
  (Ok (res_json (VObj [("hospedajes", VArr [
     lodging_offer "Apartamento Céntrico" "Apartamento entero"
       ("Centro de " ++ c) (draw 0%nat 100 + 50) 2 1 4 4.8 123
       "https://via.placeholder.com/300x200?text=Apartamento";
     lodging_offer "Hotel Boutique" "Habitación de hotel"
       ("Zona turística de " ++ c) (draw 1%nat 150 + 80) 1 1 2 4.6 87
       "https://via.placeholder.com/300x200?text=Hotel";
     lodging_offer "Casa Familiar" "Casa entera"
       ("Zona residencial de " ++ c) (draw 2%nat 200 + 120) 3 2 6 4.9 45
       "https://via.placeholder.com/300x200?text=Casa"])])),
   after_draws s 3).
Proof.
  intros Ht Hc draw.
  unfold hospedaje. apply try_ok.
  unfold hospedaje_try. rewrite Ht. cbn [negb].
  rewrite (bind_ok _ _ _ _ _ _ (template_printed _ _ "" c w s Hc)).
  rewrite (bind_ok _ _ _ _ _ _ (random_below_run 100 w s)).
  rewrite (bind_ok _ _ _ _ _ _ (template_printed _ _ "" c w _ Hc)).
  rewrite (bind_ok _ _ _ _ _ _ (random_below_run 150 w _)).
  rewrite (bind_ok _ _ _ _ _ _ (template_printed _ _ "" c w _ Hc)).
  rewrite (bind_ok _ _ _ _ _ _ (random_below_run 200 w _)).
  rewrite !append_empty. reflexivity.
Qed.

Lemma hospedaje_unprintable (req : request) (w : world) (s : state)
      (e : error) :
  JS.truthy (JS.assoc (query req) "ciudad") = true ->
  JS.ToString (JS.assoc (query req) "ciudad") = Throw e ->
  hospedaje req w s =
  (Ok (res_status_json 500
         (VObj [("error", VStr "Error al buscar hospedaje");
                ("mensaje", VStr (message e))])),
   after_log s ("Error buscando hospedaje: " ++ message e)).
Proof.
  intros Ht He. unfold hospedaje.
  erewrite try_throw.
  2:{ unfold hospedaje_try. rewrite Ht. cbn [negb]. apply bind_throw.
      unfold template, bind, lift. rewrite He. reflexivity. }
  apply catch_500_run.
Qed.

End MockCases.

(** X13: POST /vuelos answers 500 exactly when [req.body] is [null] or
    [undefined] (the destructuring throws), 200 exactly when [origen],
    [destino] and [fecha] are all there, and 400 otherwise; it draws six
    random numbers for a 200 and none for a 400 or a 500. *)
Theorem vuelos_status (req : request) (w : world) (s : state) :
  exists resp s',
    vuelos req w s = (Ok resp, s') /\
    (status resp = 500 <-> JS.nullish (body req) = true) /\
    (status resp = 200 <->
     JS.truthy (JS.get (body req) "origen") = true /\
     JS.truthy (JS.get (body req) "destino") = true /\
     JS.truthy (JS.get (body req) "fecha") = true) /\
    (status resp = 200 \/ status resp = 400 \/ status resp = 500) /\
    drawn s' = if status resp =? 200 then (6 + drawn s)%nat else drawn s.
Proof.
  destruct (JS.nullish (body req)) eqn:Hb.
  - destruct (vuelos_without_body_run req w s Hb) as [m ->].
    do 2 eexists. split; [reflexivity|]. cbn [status res_status_json].
    rewrite (nullish_get _ "origen" Hb). cbn.
    repeat split; auto; try discriminate; intros (H & _); discriminate H.
  - destruct (JS.truthy (JS.get (body req) "origen")) eqn:Ho;
    [destruct (JS.truthy (JS.get (body req) "destino")) eqn:Hd;
     [destruct (JS.truthy (JS.get (body req) "fecha")) eqn:Hf|]|].
    + rewrite (vuelos_run req w s Ho Hd Hf).
      do 2 eexists. split; [reflexivity|]. cbn.
      repeat split; auto; discriminate.
    + assert (Hrun : app Vuelos req w s
                     = (Ok (missing (complaint Vuelos)), s)).
      { apply (falsy_parameter Vuelos req w s "fecha");
          [cbn; now rewrite Hb | cbn; auto | exact Hf]. }
      cbn [app] in Hrun. rewrite Hrun.
      do 2 eexists. split; [reflexivity|]. cbn.
      repeat split; auto; try discriminate; intros (_ & _ & H); discriminate H.
    + assert (Hrun : app Vuelos req w s
                     = (Ok (missing (complaint Vuelos)), s)).
      { apply (falsy_parameter Vuelos req w s "destino");
          [cbn; now rewrite Hb | cbn; auto | exact Hd]. }
      cbn [app] in Hrun. rewrite Hrun.
      do 2 eexists. split; [reflexivity|]. cbn.
      repeat split; auto; try discriminate; intros (_ & H & _); discriminate H.
    + assert (Hrun : app Vuelos req w s
                     = (Ok (missing (complaint Vuelos)), s)).
      { apply (falsy_parameter Vuelos req w s "origen");
          [cbn; now rewrite Hb | cbn; auto | exact Ho]. }
      cbn [app] in Hrun. rewrite Hrun.
      do 2 eexists. split; [reflexivity|]. cbn.
      repeat split; auto; try discriminate; intros (H & _); discriminate H.
Qed.

(** X14: GET /hospedaje takes any [ciudad] that is there: for a value that
    prints as [c] (a string as it is, a parameter given several times as
    its values joined by commas) the answer is 200 with the three offers
    located in [c] and prices in the three ranges, and three numbers are
    drawn; for a value whose printing throws, the answer is the 500 of the
    [catch] block with the message of that error, and nothing is drawn. *)
Theorem hospedaje_any_city (req : request) (w : world) (s : state) :
  JS.truthy (JS.assoc (query req) "ciudad") = true ->
  match JS.ToString (JS.assoc (query req) "ciudad") with
  | Ok c =>
      exists p1 p2 p3 : Z,
        hospedaje req w s =
        (Ok {| status := 200;
               json := VObj [("hospedajes", VArr [
                 lodging_offer "Apartamento Céntrico" "Apartamento entero"
                   ("Centro de " ++ c) p1 2 1 4 4.8 123
                   "https://via.placeholder.com/300x200?text=Apartamento";
                 lodging_offer "Hotel Boutique" "Habitación de hotel"
                   ("Zona turística de " ++ c) p2 1 1 2 4.6 87
                   "https://via.placeholder.com/300x200?text=Hotel";
                 lodging_offer "Casa Familiar" "Casa entera"
                   ("Zona residencial de " ++ c) p3 3 2 6 4.9 45
                   "https://via.placeholder.com/300x200?text=Casa"])] |},
         after_draws s 3) /\
        (50 <= p1 < 150 /\ 80 <= p2 < 230 /\ 120 <= p3 < 320)
  | Throw e =>
      hospedaje req w s =
      (Ok {| status := 500;
             json := VObj [("error", VStr "Error al buscar hospedaje");
                           ("mensaje", VStr (message e))] |},
       after_log s ("Error buscando hospedaje: " ++ message e))
  end.
Proof.
  intros Ht.
  destruct (JS.ToString (JS.assoc (query req) "ciudad")) as [c|e] eqn:E.
  - pose proof (hospedaje_printed req w s c Ht E) as Hrun. cbv zeta in Hrun.
    pose proof (random_below_100 (random w (0 + drawn s)%nat)).
    pose proof (random_below_150 (random w (1 + drawn s)%nat)).
    pose proof (random_below_200 (random w (2 + drawn s)%nat)).
    do 3 eexists. rewrite Hrun. split; [reflexivity | lia].
  - exact (hospedaje_unprintable req w s e Ht E).
Qed.

Lemma hospedaje_any_city_witness :
  JS.ToString (VArr [VStr "Lima"; VStr "Cusco"]) = Ok "Lima,Cusco" /\
  match JS.ToString
          (JS.assoc (query (Sample.get
                              [("ciudad", VArr [VStr "Lima"; VStr "Cusco"])]))
                    "ciudad") with
  | Ok c =>
      exists p1 p2 p3 : Z,
        hospedaje (Sample.get [("ciudad", VArr [VStr "Lima"; VStr "Cusco"])])
                  Sample.offline start =
        (Ok {| status := 200;
               json := VObj [("hospedajes", VArr [
                 lodging_offer "Apartamento Céntrico" "Apartamento entero"
                   ("Centro de " ++ c) p1 2 1 4 4.8 123
                   "https://via.placeholder.com/300x200?text=Apartamento";
                 lodging_offer "Hotel Boutique" "Habitación de hotel"
                   ("Zona turística de " ++ c) p2 1 1 2 4.6 87
                   "https://via.placeholder.com/300x200?text=Hotel";
                 lodging_offer "Casa Familiar" "Casa entera"
                   ("Zona residencial de " ++ c) p3 3 2 6 4.9 45
                   "https://via.placeholder.com/300x200?text=Casa"])] |},
         after_draws start 3) /\
        (50 <= p1 < 150 /\ 80 <= p2 < 230 /\ 120 <= p3 < 320)
  | Throw e =>
      hospedaje (Sample.get [("ciudad", VArr [VStr "Lima"; VStr "Cusco"])])
                Sample.offline start =
      (Ok {| status := 500;
             json := VObj [("error", VStr "Error al buscar hospedaje");
                           ("mensaje", VStr (message e))] |},
       after_log start ("Error buscando hospedaje: " ++ message e))
  end.
Proof.
  split; [reflexivity|].
  apply (hospedaje_any_city
           (Sample.get [("ciudad", VArr [VStr "Lima"; VStr "Cusco"])])
           Sample.offline start).
  reflexivity.
Defined.

(** X15: a 200 of POST /consejos gives the request back: [destino] as it
    came (whatever its type), and for [tipoViaje] and [presupuesto] the
    string that was given or, when the field is missing, the default
    "vacaciones" or "medio"; the recommendations and the note hold
    [destino] as it prints. *)
Theorem consejos_echo (req : request) (w : world) (s : state) (d : string) :
  JS.truthy (JS.get (body req) "destino") = true ->
  JS.ToString (JS.get (body req) "destino") = Ok d ->
  optional_string (JS.get (body req) "tipoViaje") = true ->
  optional_string (JS.get (body req) "presupuesto") = true ->
  exists resp,
    consejos req w s = (Ok resp, s) /\ status resp = 200 /\
    keys (json resp) = ["destino"; "tipoViaje"; "presupuesto";
                        "recomendaciones"; "consejoPresupuesto"] /\
    JS.get (json resp) "destino" = JS.get (body req) "destino" /\
    JS.get (json resp) "tipoViaje" =
      default (JS.get (body req) "tipoViaje") (VStr "vacaciones") /\
    JS.get (json resp) "presupuesto" =
      default (JS.get (body req) "presupuesto") (VStr "medio") /\
    (exists T, selects (text_or "vacaciones" (JS.get (body req) "tipoViaje")) T /\
               JS.get (json resp) "recomendaciones" =
               VArr (map (fun before => VStr (before ++ d)%string) T)) /\
    (exists N, notes (text_or "medio" (JS.get (body req) "presupuesto")) N /\
               JS.get (json resp) "consejoPresupuesto" =
               VStr (fst N ++ d ++ snd N)%string).
Proof.
  intros Htr Hd Ht Hp.
  rewrite (consejos_printed req w s d Htr Hd Ht Hp).
  eexists. split; [reflexivity|].
  split; [reflexivity|]. split; [reflexivity|]. split; [reflexivity|].
  split.
  { destruct (JS.get (body req) "tipoViaje"); try discriminate; reflexivity. }
  split.
  { destruct (JS.get (body req) "presupuesto"); try discriminate; reflexivity. }
  split.
  - eexists. split; [apply pick_selects | reflexivity].
  - eexists. split; [apply tier_notes | reflexivity].
Qed.

Lemma consejos_echo_witness :
  JS.ToString (VArr [VStr "Lima"; VStr "Cusco"]) = Ok "Lima,Cusco" /\
  exists resp,
    consejos (Sample.post [("destino", VArr [VStr "Lima"; VStr "Cusco"])])
             Sample.offline start = (Ok resp, start) /\
    status resp = 200 /\
    keys (json resp) = ["destino"; "tipoViaje"; "presupuesto";
                        "recomendaciones"; "consejoPresupuesto"] /\
    JS.get (json resp) "destino" = VArr [VStr "Lima"; VStr "Cusco"] /\
    JS.get (json resp) "tipoViaje" = VStr "vacaciones" /\
    JS.get (json resp) "presupuesto" = VStr "medio" /\
    (exists T, selects "vacaciones" T /\
               JS.get (json resp) "recomendaciones" =
               VArr (map (fun before => VStr (before ++ "Lima,Cusco")%string)
                       T)) /\
    (exists N, notes "medio" N /\
               JS.get (json resp) "consejoPresupuesto" =
               VStr (fst N ++ "Lima,Cusco" ++ snd N)%string).
Proof.
  split; [reflexivity|].
  apply (consejos_echo
           (Sample.post [("destino", VArr [VStr "Lima"; VStr "Cusco"])])
           Sample.offline start "Lima,Cusco"); reflexivity.
Defined.

(** ** More examples *)

Section MoreExamples.

(** [GET /] and [GET /tools] answer with their constants. *)
Example root_online :
  root Sample.sin_parametros Sample.offline start =
  (Ok (res_json
         (VObj [("status", VStr "online");
                ("message", VStr "MCP Travel Assistant API is running");
                ("endpoints", VArr [VStr "/wiki"; VStr "/clima";
                                    VStr "/vuelos"; VStr "/hospedaje";
                                    VStr "/consejos"])])), start).
Proof. reflexivity. Qed.

Example tools_catalogue :
  map (fun ep => (tool_name ep, catalogue_required ep, catalogue_properties ep))
      [Wiki; Clima; Vuelos; Hospedaje; Consejos] =
  [("consultarWikipedia", ["ciudad"], ["ciudad"]);
   ("consultarClima", ["ciudad"], ["ciudad"]);
   ("buscarVuelos", ["origen"; "destino"; "fecha"],
    ["origen"; "destino"; "fecha"]);
   ("buscarHospedaje", ["ciudad"], ["ciudad"; "fechaEntrada"; "fechaSalida"]);
   ("obtenerRecomendaciones", ["destino"],
    ["destino"; "tipoViaje"; "presupuesto"])] /\
  fst (tools Sample.sin_parametros Sample.offline start) =
  Ok (res_json (VObj [("tools", VArr catalogue)])).
Proof. split; reflexivity. Qed.

(** A [null] where a string is optional is not replaced by the default. *)
Example consejos_null_tipoViaje :
  fst (consejos (Sample.post [("destino", VStr "Paris"); ("tipoViaje", VNull)])
         Sample.offline start) =
  Ok (res_status_json 500 (VObj [
    ("error", VStr "Error al generar recomendaciones");
    ("mensaje",
     VStr "Cannot read properties of null (reading 'toLowerCase')")])).
Proof. vm_compute. reflexivity. Qed.

(** What [encodeURIComponent] makes of a city with a space, an accent and a
    query separator. *)
Example wiki_url_san_jose :
  wiki_url "San José&x=1" =
  "https://es.wikipedia.org/api/rest_v1/page/summary/San%20Jos%C3%A9%26x%3D1".
Proof. vm_compute. reflexivity. Qed.

(** Numbers print as JavaScript prints them: the fewest digits that read
    back, and exponent form from 1e21 up and below 1e-6. *)
Example numbers_print :
  map JS.number_to_string
      [inject_Z 0; inject_Z 999; inject_Z (-12); 4.8%Q; 18.5%Q;
       inject_Z (10 ^ 21); inject_Z (10 ^ 21 - 1); inject_Z (2 ^ 60);
       Qmake 1 (10 ^ 6); Qmake 1 (10 ^ 7); 0.30000000000000004%Q;
       0.1234567890123456789%Q; Qmake 5 (10 ^ 324); inject_Z (10 ^ 400)] =
  ["0"; "999"; "-12"; "4.8"; "18.5";
   "1e+21"; "1e+21"; "1152921504606847000";
   "0.000001"; "1e-7"; "0.30000000000000004";
   "0.12345678901234568"; "5e-324"; "Infinity"].
Proof. vm_compute. reflexivity. Qed.

(** A [destino] that is a number is interpolated as it prints. *)
Example consejos_number_destino :
  JS.get
    match fst (consejos (Sample.post [("destino", num (10 ^ 21))])
                 Sample.offline start) with
    | Ok resp => json resp
    | Throw _ => VUndefined
    end "consejoPresupuesto"
  = VStr "Con un presupuesto medio en 1e+21, equilibra experiencias premium con opciones más económicas. Considera un hotel de 3-4 estrellas y mezcla restaurantes de diferentes categorías.".
Proof. vm_compute. reflexivity. Qed.

End MoreExamples.
